(** * velodyne_pointcloud: the raw packet decoder of [rawdata.cc]

    A shallow embedding of [RawData::setParameters], [RawData::setup] and
    [RawData::unpack] (src/velodyne_pointcloud/src/lib/rawdata.cc) and the
    properties of the decoder that its specification states.

    Numbers are modelled as the program has them:
    - [int], [uint8_t], [uint16_t] and [uint32_t] values are [Z], with the
      truncation written out where the program narrows and the wrap-around
      where it counts (the width of the cloud);
    - [float] and [double] values are IEEE 754 binary32 and binary64 values,
      represented by [spec_float] and computed with the operations of the
      standard library's [SpecFloat] (round to nearest, ties to even), every
      operation being carried out in the type C++ gives it
      (FLT_EVAL_METHOD 0, as on x86-64);
    - arrays are lists, and a read outside an array is an outcome of its own
      ([OutOfBounds]).

    The headers that declare the constants and the types of the decoder
    (rawdata.h, calibration.h, point_types.h) are not among the sources: the
    constants that the specification gives are defined from it, the others
    are parameters ([rawdata_h]). *)

From Stdlib Require Import ZArith QArith List Bool Lia.
From Stdlib Require Import Strings.Byte.
From Stdlib Require Strings.String.
From Stdlib Require Import Floats.SpecFloat.
Import ListNotations.
Local Open Scope Z_scope.

(** ** IEEE 754 arithmetic *)

Module Ieee.

Section Format.
Variables prec emax : Z.

(** A value of the format: a finite value is written with the one mantissa
    and exponent that the format gives it. *)
Definition valid (x : spec_float) : bool := valid_binary prec emax x.

Definition add (x y : spec_float) := SFadd prec emax x y.
Definition sub (x y : spec_float) := SFsub prec emax x y.
Definition mul (x y : spec_float) := SFmul prec emax x y.
Definition div (x y : spec_float) := SFdiv prec emax x y.
Definition opp (x : spec_float) := SFopp x.
Definition fabs (x : spec_float) := SFabs x.

(** The comparison operators of C++: false when an operand is NaN. *)
Definition ltb (x y : spec_float) := SFltb x y.
Definition leb (x y : spec_float) := SFleb x y.
Definition gtb (x y : spec_float) := SFltb y x.
Definition geb (x y : spec_float) := SFleb y x.

(** Conversion of an integer (exact when it fits the mantissa). *)
Definition of_Z (z : Z) : spec_float :=
  binary_normalize prec emax z 0 false.

(** Conversion from another format: rounding of the exact value. *)
Definition of_float (x : spec_float) : spec_float :=
  match x with
  | S754_finite s m e => binary_round prec emax s m e
  | _ => x
  end.
End Format.

Definition is_nan (x : spec_float) : bool :=
  match x with S754_nan => true | _ => false end.

(** The values that are numbers: zeros and finite values. *)
Definition is_finite (x : spec_float) : bool :=
  match x with
  | S754_zero _ | S754_finite _ _ _ => true
  | _ => false
  end.

(** The integer part of a number, rounded toward zero; [None] for NaN and the
    infinities. *)
Definition trunc (x : spec_float) : option Z :=
  match x with
  | S754_zero _ => Some 0
  | S754_finite s m e =>
      let a := match e with
               | Zneg p => Z.shiftr (Zpos m) (Zpos p)
               | _ => Z.shiftl (Zpos m) e
               end in
      Some (if s then - a else a)
  | _ => None
  end.

(** Conversion to [int].  C++ defines it when the integer part fits; for the
    other values this is the result of the x86-64 conversion instructions
    (cvttss2si, cvttsd2si): the "integer indefinite" value -2^31. *)
Definition to_int (x : spec_float) : Z :=
  match trunc x with
  | Some t => if (- 2 ^ 31 <=? t) && (t <? 2 ^ 31) then t else - 2 ^ 31
  | None => - 2 ^ 31
  end.

(** Conversion to [uint8_t]: conversion to a 32-bit integer of which the low
    byte is kept. *)
Definition to_uint8 (x : spec_float) : Z := to_int x mod 256.

End Ieee.

(** *** binary32 ([float]) and binary64 ([double]) *)

Module F32.
Definition prec := 24.
Definition emax := 128.
Definition valid := Ieee.valid prec emax.
Definition add := Ieee.add prec emax.
Definition sub := Ieee.sub prec emax.
Definition mul := Ieee.mul prec emax.
Definition div := Ieee.div prec emax.
Definition of_Z := Ieee.of_Z prec emax.
(** [(float) d] for a [double] d. *)
Definition of_double := Ieee.of_float prec emax.
Definition zero := S754_zero false.

(** The value of a number of the format, in units of 2^-149 (the least
    positive value of the format): an integer. *)
Definition scaled (x : spec_float) : Z :=
  match x with
  | S754_finite s m e => cond_Zopp s (Zpos m * 2 ^ (e + 149))
  | _ => 0
  end.
End F32.

Module F64.
Definition prec := 53.
Definition emax := 1024.
Definition valid := Ieee.valid prec emax.
Definition add := Ieee.add prec emax.
Definition sub := Ieee.sub prec emax.
Definition mul := Ieee.mul prec emax.
Definition div := Ieee.div prec emax.
Definition of_Z := Ieee.of_Z prec emax.
(** The promotion of a [float] to [double] (exact). *)
Definition of_single := Ieee.of_float prec emax.
(** A decimal literal [n / d]: the double nearest to it. *)
Definition literal (n d : Z) := div (of_Z n) (of_Z d).
End F64.

(** [fmod] of the C library on doubles: the remainder of the division of the
    magnitudes, with the sign of [x]; it is always exact. *)
Definition fmod (x y : spec_float) : spec_float :=
  match x, y with
  | S754_nan, _ | _, S754_nan => S754_nan
  | S754_infinity _, _ => S754_nan
  | _, S754_zero _ => S754_nan
  | S754_zero _, _ => x
  | S754_finite _ _ _, S754_infinity _ => x
  | S754_finite sx mx ex, S754_finite _ my ey =>
      let e := Z.min ex ey in
      let X := Zpos mx * 2 ^ (ex - e) in
      let Y := Zpos my * 2 ^ (ey - e) in
      binary_normalize F64.prec F64.emax (cond_Zopp sx (X mod Y)) e sx
  end.

(** [M_PI] of <math.h>: 0x1.921fb54442d18p+1. *)
Definition M_PI : spec_float := S754_finite false 7074237752028440 (-51).

(** ** Constants and types of the headers *)

(** Modelled from the spec: [ROTATION_MAX_UNITS] of rawdata.h, which is not
    among the sources; the rotation tables have one entry for each of the
    rotation units 0..35999. *)
Definition ROTATION_MAX_UNITS : Z := 36000.

(** Modelled from the spec: [SCANS_PER_BLOCK] of rawdata.h; a block covers one
    bank of 32 channels. *)
Definition SCANS_PER_BLOCK : Z := 32.

(** Modelled from the spec: [RAW_SCAN_SIZE] of rawdata.h; a scan record is
    three bytes. *)
Definition RAW_SCAN_SIZE : Z := 3.

(** Modelled from the spec: the layout of [raw_block_t]; a two-byte header, a
    two-byte rotation and the scan records. *)
Definition BLOCK_DATA_SIZE : Z := SCANS_PER_BLOCK * RAW_SCAN_SIZE.
Definition SIZE_BLOCK : Z := 4 + BLOCK_DATA_SIZE.

(** How the unqualified call [abs(e)] on a [float] argument resolves: to the
    [float] overload that <cmath> adds, or to [int abs(int)] of <stdlib.h>,
    depending on the headers of the build. *)
Inductive abs_overload := abs_float | abs_int.

(** The constants of rawdata.h that the sources use and that neither the
    sources nor the specification give. *)
Record rawdata_h := {
  LOWER_BANK : Z;                    (* uint16_t *)
  BLOCKS_PER_PACKET : Z;             (* int *)
  DISTANCE_RESOLUTION : spec_float;  (* float *)
  abs_resolution : abs_overload
}.

(** [velodyne_pointcloud::LaserCorrection], the fields that [unpack] reads. *)
Record LaserCorrection := {
  dist_correction : spec_float;
  two_pt_correction_available : bool;
  dist_correction_x : spec_float;
  dist_correction_y : spec_float;
  vert_offset_correction : spec_float;
  horiz_offset_correction : spec_float;
  max_intensity : spec_float;
  min_intensity : spec_float;
  focal_distance : spec_float;
  focal_slope : spec_float;
  cos_rot_correction : spec_float;
  sin_rot_correction : spec_float;
  cos_vert_correction : spec_float;
  sin_vert_correction : spec_float;
  laser_ring : Z
}.

(** [RawData::Config]. *)
Record Config := {
  calibrationFile : String.string;  (* std::string *)
  min_range : spec_float;      (* double *)
  max_range : spec_float;      (* double *)
  min_angle : Z;               (* int *)
  max_angle : Z;               (* int *)
  tmp_min_angle : spec_float;  (* double *)
  tmp_max_angle : spec_float   (* double *)
}.

(** The members of [RawData]. *)
Record RawData := {
  config_ : Config;
  laser_corrections : Z -> LaserCorrection;
  cos_rot_table_ : list spec_float;
  sin_rot_table_ : list spec_float
}.

(** Modelled from the spec: the point type and the cloud, which are declared
    outside the sources; a point has x, y, z, an intensity in 0..255 and a
    ring, the cloud a sequence of points and a width that counts them.  The
    width is the [uint32_t] member of [pcl::PointCloud]. *)
Record VPoint := {
  ring : Z;
  x : spec_float;
  y : spec_float;
  z : spec_float;
  intensity : Z
}.

Record VPointCloud := {
  points : list VPoint;
  width : Z
}.

(** ** [RawData::setup]: the rotation tables *)

(** Lines 119-123: the loop that fills the two tables, for [rot_index] from 0
    to [ROTATION_MAX_UNITS] - 1.  [heading_cos i] and [heading_sin i] stand
    for [cosf] and [sinf] of [angles::from_degrees(ROTATION_RESOLUTION * i)],
    which libm and the angles package compute. *)
Definition rot_indices : list Z :=
  map Z.of_nat (seq 0 (Z.to_nat ROTATION_MAX_UNITS)).

Definition setup_tables (heading_cos heading_sin : Z -> spec_float)
    (this : RawData) : RawData :=
  {| config_ := config_ this;
     laser_corrections := laser_corrections this;
     cos_rot_table_ := map heading_cos rot_indices;
     sin_rot_table_ := map heading_sin rot_indices |}.

(** ** [RawData::setParameters] *)

Definition two_M_PI : spec_float := F64.mul (F64.of_Z 2) M_PI.

(** [fmod(fmod(a, 2*M_PI) + 2*M_PI, 2*M_PI)]. *)
Definition positive_modulo (a : spec_float) : spec_float :=
  fmod (F64.add (fmod a two_M_PI) two_M_PI) two_M_PI.

(** [100 * (2*M_PI - tmp) * 180 / M_PI + 0.5], converted to [int]. *)
Definition hardware_angle (tmp : spec_float) : Z :=
  Ieee.to_int
    (F64.add
       (F64.div
          (F64.mul (F64.mul (F64.of_Z 100) (F64.sub two_M_PI tmp))
                   (F64.of_Z 180))
          M_PI)
       (F64.literal 5 10)).

(** Lines 47-78: [config_] after the call, from [config_] before it, of
    which the call keeps [calibrationFile]. *)
Definition setParameters (before : Config)
    (min_range max_range view_center left_most_angle right_most_angle
       : spec_float) : Config :=
  let tmp_min := positive_modulo (F64.add view_center left_most_angle) in
  let tmp_max := positive_modulo (F64.sub view_center right_most_angle) in
  let mn := hardware_angle tmp_min in
  let mx := hardware_angle tmp_max in
  if mn =? mx
  then {| calibrationFile := calibrationFile before;
          min_range := min_range; max_range := max_range;
          min_angle := 0; max_angle := 36000;
          tmp_min_angle := tmp_min; tmp_max_angle := tmp_max |}
  else {| calibrationFile := calibrationFile before;
          min_range := min_range; max_range := max_range;
          min_angle := mn; max_angle := mx;
          tmp_min_angle := tmp_min; tmp_max_angle := tmp_max |}.

(** ** Reads that C++ leaves undefined *)

(** The result of a computation that indexes arrays: a value, or a read
    outside an array. *)
Inductive outcome (A : Type) : Type :=
| Done (a : A)
| OutOfBounds.
Arguments Done {A} a.
Arguments OutOfBounds {A}.

Definition bind {A B : Type} (c : outcome A) (k : A -> outcome B) : outcome B :=
  match c with
  | Done a => k a
  | OutOfBounds => OutOfBounds
  end.

Notation "x <- c ;; k" := (bind c (fun x => k))
  (at level 61, c at next level, right associativity).

(** [a[i]] for an array held as a list. *)
Definition index {A : Type} (a : list A) (i : Z) : outcome A :=
  if i <? 0 then OutOfBounds
  else match nth_error a (Z.to_nat i) with
       | Some v => Done v
       | None => OutOfBounds
       end.

(** ** The raw packet *)

(** [pkt.data], the bytes of the packet. *)
Definition packet := list byte.

Definition byte_at (pkt : packet) (off : Z) : outcome Z :=
  b <- index pkt off ;; Done (Z.of_N (Byte.to_N b)).

(** A [uint16_t] read through its two bytes on a little-endian host; this is
    also [tmp.uint] of [union two_bytes]. *)
Definition two_bytes_uint (b0 b1 : Z) : Z := b0 + 256 * b1.

(** [raw->blocks[i].header], [raw->blocks[i].rotation] and
    [raw->blocks[i].data[k]]. *)
Definition block_header (pkt : packet) (i : Z) : outcome Z :=
  b0 <- byte_at pkt (SIZE_BLOCK * i) ;;
  b1 <- byte_at pkt (SIZE_BLOCK * i + 1) ;;
  Done (two_bytes_uint b0 b1).

Definition block_rotation (pkt : packet) (i : Z) : outcome Z :=
  b0 <- byte_at pkt (SIZE_BLOCK * i + 2) ;;
  b1 <- byte_at pkt (SIZE_BLOCK * i + 3) ;;
  Done (two_bytes_uint b0 b1).

Definition block_data (pkt : packet) (i k : Z) : outcome Z :=
  byte_at pkt (SIZE_BLOCK * i + 4 + k).

(** ** [RawData::unpack] *)

Section Unpack.
Variable hdr : rawdata_h.

(** Lines 143-147. *)
Definition bank_origin (header : Z) : Z :=
  if header =? LOWER_BANK hdr then 32 else 0.

(** Line 155; [laser_number] is a [uint8_t]. *)
Definition laser_number (bank_origin j : Z) : Z :=
  (j + bank_origin) mod 256.

(** Lines 166-171: the condition on the rotation of the block. *)
Definition in_window (c : Config) (rotation : Z) : bool :=
  ((rotation >=? min_angle c) && (rotation <=? max_angle c)
     && (min_angle c <? max_angle c))
  || ((min_angle c >? max_angle c)
        && ((rotation <=? max_angle c) || (rotation >=? min_angle c))).

(** Lines 172-173. *)
Definition distance_of (corrections : LaserCorrection) (raw : Z) : spec_float :=
  F32.add (F32.mul (F32.of_Z raw) (DISTANCE_RESOLUTION hdr))
          (dist_correction corrections).

(** Lines 182-187, from the table entries of the rotation. *)
Definition cos_rot_angle_of (corrections : LaserCorrection)
    (cos_rot sin_rot : spec_float) : spec_float :=
  F32.add (F32.mul cos_rot (cos_rot_correction corrections))
          (F32.mul sin_rot (sin_rot_correction corrections)).

Definition sin_rot_angle_of (corrections : LaserCorrection)
    (cos_rot sin_rot : spec_float) : spec_float :=
  F32.sub (F32.mul sin_rot (cos_rot_correction corrections))
          (F32.mul cos_rot (sin_rot_correction corrections)).

(** [if (v < 0) v = -v;] *)
Definition make_positive (v : spec_float) : spec_float :=
  if Ieee.ltb v (F32.of_Z 0) then Ieee.opp v else v.

(** Lines 193-200. *)
Definition xx_of (corrections : LaserCorrection)
    (distance cos_rot_angle sin_rot_angle : spec_float) : spec_float :=
  let xy_distance := F32.mul distance (cos_vert_correction corrections) in
  make_positive
    (F32.sub (F32.mul xy_distance sin_rot_angle)
             (F32.mul (horiz_offset_correction corrections) cos_rot_angle)).

Definition yy_of (corrections : LaserCorrection)
    (distance cos_rot_angle sin_rot_angle : spec_float) : spec_float :=
  let xy_distance := F32.mul distance (cos_vert_correction corrections) in
  make_positive
    (F32.add (F32.mul xy_distance cos_rot_angle)
             (F32.mul (horiz_offset_correction corrections) sin_rot_angle)).

(** The expression of lines 209-211 and 213-215, evaluated in [double] as
    its literals require:
    [(dist_correction - c) * (v - lo) / (hi - lo) + c]. *)
Definition two_pt_interpolation (corrections : LaserCorrection)
    (c v lo hi : spec_float) : spec_float :=
  F64.add
    (F64.div
       (F64.mul (F64.of_single (F32.sub (dist_correction corrections) c))
                (F64.sub (F64.of_single v) lo))
       (F64.sub hi lo))
    (F64.of_single c).

(** Lines 205-216. *)
Definition distance_corr_x_of (corrections : LaserCorrection)
    (xx : spec_float) : spec_float :=
  if two_pt_correction_available corrections
  then F32.of_double
         (two_pt_interpolation corrections (dist_correction_x corrections) xx
            (F64.literal 24 10) (F64.literal 2504 100))
  else F32.of_Z 0.

Definition distance_corr_y_of (corrections : LaserCorrection)
    (yy : spec_float) : spec_float :=
  if two_pt_correction_available corrections
  then F32.of_double
         (two_pt_interpolation corrections (dist_correction_y corrections) yy
            (F64.literal 193 100) (F64.literal 2504 100))
  else F32.of_Z 0.

(** Lines 218-226. *)
Definition x_of (corrections : LaserCorrection)
    (distance distance_corr_x cos_rot_angle sin_rot_angle : spec_float)
    : spec_float :=
  let distance_x := F32.add distance distance_corr_x in
  let xy_distance := F32.mul distance_x (cos_vert_correction corrections) in
  F32.add (F32.mul xy_distance sin_rot_angle)
          (F32.mul (horiz_offset_correction corrections) cos_rot_angle).

Definition y_of (corrections : LaserCorrection)
    (distance distance_corr_y cos_rot_angle sin_rot_angle : spec_float)
    : spec_float :=
  let distance_y := F32.add distance distance_corr_y in
  let xy_distance := F32.mul distance_y (cos_vert_correction corrections) in
  F32.add (F32.mul xy_distance cos_rot_angle)
          (F32.mul (horiz_offset_correction corrections) sin_rot_angle).

Definition z_of (corrections : LaserCorrection) (distance : spec_float)
    : spec_float :=
  F32.add (F32.mul distance (sin_vert_correction corrections))
          (vert_offset_correction corrections).

(** Lines 240-242. *)
Definition focal_offset_of (corrections : LaserCorrection) : spec_float :=
  let t := F32.sub (F32.of_Z 1)
                   (F32.div (focal_distance corrections) (F32.of_Z 13100)) in
  F32.mul (F32.mul (F32.of_Z 256) t) t.

(** Lines 244-245: [256 * (1 - tmp.uint/65535)*(1 - tmp.uint/65535)], whose
    operands all are of type [int]. *)
Definition falloff_of (raw : Z) : Z :=
  256 * (1 - Z.quot raw 65535) * (1 - Z.quot raw 65535).

(** A value of type [int] after an overflow. *)
Definition wrap_int (n : Z) : Z := (n + 2 ^ 31) mod 2 ^ 32 - 2 ^ 31.

(** [abs(v)] for a [float] v, converted back to [float]. *)
Definition abs_of (v : spec_float) : spec_float :=
  match abs_resolution hdr with
  | abs_float => Ieee.fabs v
  | abs_int => F32.of_Z (wrap_int (Z.abs (Ieee.to_int v)))
  end.

(** Lines 244-245: the term added to the raw intensity. *)
Definition intensity_correction_of (corrections : LaserCorrection) (raw : Z)
    : spec_float :=
  F32.mul (focal_slope corrections)
    (abs_of (F32.sub (focal_offset_of corrections) (F32.of_Z (falloff_of raw)))).

(** Lines 246-247. *)
Definition clamp (min_intensity max_intensity v : spec_float) : spec_float :=
  let v := if Ieee.ltb v min_intensity then min_intensity else v in
  if Ieee.gtb v max_intensity then max_intensity else v.

(** Lines 238-247: [intensity] before and after the two clamping
    assignments. *)
Definition raw_plus_correction (corrections : LaserCorrection)
    (raw raw_intensity : Z) : spec_float :=
  F32.add (F32.of_Z raw_intensity) (intensity_correction_of corrections raw).

Definition intensity_of (corrections : LaserCorrection)
    (raw raw_intensity : Z) : spec_float :=
  clamp (min_intensity corrections) (max_intensity corrections)
    (raw_plus_correction corrections raw raw_intensity).

(** Modelled from the spec: [pointInRange] of rawdata.h, which is not among
    the sources: accept only if min_range <= distance <= max_range.  The
    [float] argument is compared with the [double] bounds. *)
Definition pointInRange (c : Config) (range : spec_float) : bool :=
  Ieee.geb (F64.of_single range) (min_range c)
  && Ieee.leb (F64.of_single range) (max_range c).

(** Lines 252-257: the point of a record. *)
Definition point_of (corrections : LaserCorrection)
    (cos_rot sin_rot : spec_float) (raw raw_intensity : Z) : VPoint :=
  let distance := distance_of corrections raw in
  let cos_rot_angle := cos_rot_angle_of corrections cos_rot sin_rot in
  let sin_rot_angle := sin_rot_angle_of corrections cos_rot sin_rot in
  let xx := xx_of corrections distance cos_rot_angle sin_rot_angle in
  let yy := yy_of corrections distance cos_rot_angle sin_rot_angle in
  let x := x_of corrections distance (distance_corr_x_of corrections xx)
             cos_rot_angle sin_rot_angle in
  let y := y_of corrections distance (distance_corr_y_of corrections yy)
             cos_rot_angle sin_rot_angle in
  {| ring := laser_ring corrections;
     x := y;
     y := Ieee.opp x;
     z := z_of corrections distance;
     intensity := Ieee.to_uint8 (intensity_of corrections raw raw_intensity) |}.

(** [pc.points.push_back(point); ++pc.width;], the width being a 32-bit
    unsigned counter, which wraps. *)
Definition push_back (pc : VPointCloud) (p : VPoint) : VPointCloud :=
  {| points := points pc ++ [p]; width := (width pc + 1) mod 2 ^ 32 |}.

Variable this : RawData.

(** Lines 151-263: the body of the loop over the records of block [i]. *)
Definition unpack_scan (pkt : packet) (i bank_origin j : Z)
    (pc : VPointCloud) : outcome VPointCloud :=
  let k := j * RAW_SCAN_SIZE in
  let corrections := laser_corrections this (laser_number bank_origin j) in
  b0 <- block_data pkt i k ;;
  b1 <- block_data pkt i (k + 1) ;;
  let raw := two_bytes_uint b0 b1 in
  rotation <- block_rotation pkt i ;;
  if in_window (config_ this) rotation then
    cos_rot <- index (cos_rot_table_ this) rotation ;;
    sin_rot <- index (sin_rot_table_ this) rotation ;;
    raw_intensity <- block_data pkt i (k + 2) ;;
    if pointInRange (config_ this) (distance_of corrections raw)
    then Done (push_back pc
                 (point_of corrections cos_rot sin_rot raw raw_intensity))
    else Done pc
  else Done pc.

(** [for (j = 0; j < SCANS_PER_BLOCK; j++)], with [n] iterations left. *)
Fixpoint unpack_scans (pkt : packet) (i bank_origin : Z) (n : nat) (j : Z)
    (pc : VPointCloud) : outcome VPointCloud :=
  match n with
  | O => Done pc
  | S n' => pc' <- unpack_scan pkt i bank_origin j pc ;;
            unpack_scans pkt i bank_origin n' (j + 1) pc'
  end.

(** Lines 141-264: the body of the loop over the blocks. *)
Definition unpack_block (pkt : packet) (i : Z) (pc : VPointCloud)
    : outcome VPointCloud :=
  header <- block_header pkt i ;;
  unpack_scans pkt i (bank_origin header) (Z.to_nat SCANS_PER_BLOCK) 0 pc.

(** [for (i = 0; i < BLOCKS_PER_PACKET; i++)], with [n] iterations left. *)
Fixpoint unpack_blocks (pkt : packet) (n : nat) (i : Z) (pc : VPointCloud)
    : outcome VPointCloud :=
  match n with
  | O => Done pc
  | S n' => pc' <- unpack_block pkt i pc ;;
            unpack_blocks pkt n' (i + 1) pc'
  end.

Definition unpack (pkt : packet) (pc : VPointCloud) : outcome VPointCloud :=
  unpack_blocks pkt (Z.to_nat (BLOCKS_PER_PACKET hdr)) 0 pc.

End Unpack.

(** ** A concrete decoder, for examples *)

Module Sample.

(** The constants as the velodyne driver's rawdata.h has them:
    LOWER_BANK 0xddff, twelve blocks, DISTANCE_RESOLUTION 0.002f. *)
Definition hdl64 (a : abs_overload) : rawdata_h :=
  {| LOWER_BANK := 56831;
     BLOCKS_PER_PACKET := 12;
     DISTANCE_RESOLUTION := F32.of_double (F64.literal 2 1000);
     abs_resolution := a |}.

(** A channel without corrections: vertical and rotational correction
    angles 0, intensities kept in [lo, hi]. *)
Definition plain_channel (lo hi : Z) : LaserCorrection :=
  {| dist_correction := F32.zero;
     two_pt_correction_available := false;
     dist_correction_x := F32.zero;
     dist_correction_y := F32.zero;
     vert_offset_correction := F32.zero;
     horiz_offset_correction := F32.zero;
     max_intensity := F32.of_Z hi;
     min_intensity := F32.of_Z lo;
     focal_distance := F32.zero;
     focal_slope := F32.zero;
     cos_rot_correction := F32.of_Z 1;
     sin_rot_correction := F32.zero;
     cos_vert_correction := F32.of_Z 1;
     sin_vert_correction := F32.zero;
     laser_ring := 0 |}.

(** A configuration with the ranges [near, far] and the window
    [mn, mx]. *)
Definition config (near far mn mx : Z) : Config :=
  {| calibrationFile := String.EmptyString;
     min_range := F64.of_Z near; max_range := F64.of_Z far;
     min_angle := mn; max_angle := mx;
     tmp_min_angle := F32.zero; tmp_max_angle := F32.zero |}.

Definition window (mn mx : Z) : Config := config 1 130 mn mx.

(** A configuration before the first call of [setParameters]. *)
Definition unset : Config := config 0 0 0 0.

(** The configuration that [setParameters] stores for the ranges [1, 130],
    the view centre 0 and ten degrees to either side of it: the window from
    35000 to 1000. *)
Definition ten_degrees : spec_float := F64.div M_PI (F64.of_Z 18).

Definition stored_window : Config :=
  setParameters unset (F64.of_Z 1) (F64.of_Z 130) (F64.of_Z 0)
    ten_degrees ten_degrees.

(** A decoder after [setup], with the same correction for every laser and
    tables that hold cosine 1 and sine 0 for every heading. *)
Definition decoder (c : Config) (l : LaserCorrection) : RawData :=
  setup_tables (fun _ => F32.of_Z 1) (fun _ => F32.zero)
    {| config_ := c;
       laser_corrections := fun _ => l;
       cos_rot_table_ := [];
       sin_rot_table_ := [] |}.

Definition byte_of (n : Z) : byte :=
  match Byte.of_N (Z.to_N n) with Some b => b | None => x00 end.

(** A block: header, rotation, and 32 times the same record. *)
Definition block (header rotation raw raw_intensity : Z) : list byte :=
  map byte_of
    ([header mod 256; header / 256; rotation mod 256; rotation / 256]
     ++ concat (repeat [raw mod 256; raw / 256; raw_intensity]
                       (Z.to_nat SCANS_PER_BLOCK))).

(** A packet of 1206 bytes: twelve times the same block, and the six bytes
    of status that follow the blocks. *)
Definition uniform_packet (header rotation raw raw_intensity : Z) : packet :=
  concat (repeat (block header rotation raw raw_intensity) 12)
  ++ repeat x00 6.

Definition empty_cloud : VPointCloud := {| points := []; width := 0 |}.

(** A channel with a two-point correction. *)
Definition two_point_channel : LaserCorrection :=
  {| dist_correction := F32.of_Z 1;
     two_pt_correction_available := true;
     dist_correction_x := F32.of_Z 2;
     dist_correction_y := F32.of_Z 3;
     vert_offset_correction := F32.zero;
     horiz_offset_correction := F32.zero;
     max_intensity := F32.of_Z 255;
     min_intensity := F32.of_Z 0;
     focal_distance := F32.zero;
     focal_slope := F32.zero;
     cos_rot_correction := F32.of_Z 1;
     sin_rot_correction := F32.zero;
     cos_vert_correction := F32.of_Z 1;
     sin_vert_correction := F32.zero;
     laser_ring := 0 |}.

End Sample.

(** ** The specification's formulas *)

(** The window test as the specification words it, with [<=] between the two
    angles in its first alternative. *)
Definition spec_window (c : Config) (r : Z) : Prop :=
  (min_angle c <= max_angle c /\ min_angle c <= r <= max_angle c)
  \/ (min_angle c > max_angle c /\ (r <= max_angle c \/ r >= min_angle c)).

(** The falloff term of the intensity correction as the specification words
    it: 256 (1 - raw_distance / 65535)^2, a rational number. *)
Definition spec_falloff (raw : Z) : Q :=
  (256 * ((1 - (raw # 65535)) * (1 - (raw # 65535))))%Q.

(** A decoder after [setup]: the two rotation tables have
    [ROTATION_MAX_UNITS] entries. *)
Definition tables_ready (this : RawData) : Prop :=
  Z.of_nat (length (cos_rot_table_ this)) = ROTATION_MAX_UNITS
  /\ Z.of_nat (length (sin_rot_table_ this)) = ROTATION_MAX_UNITS.

(** A well-formed packet as the specification describes it: it holds the
    blocks that [unpack] reads, and the rotation of each block is in
    [0, 36000). *)
Definition well_formed (hdr : rawdata_h) (pkt : packet) : Prop :=
  SIZE_BLOCK * BLOCKS_PER_PACKET hdr <= Z.of_nat (length pkt)
  /\ forall i r, 0 <= i < BLOCKS_PER_PACKET hdr ->
       block_rotation pkt i = Done r -> r < ROTATION_MAX_UNITS.

(** [pc] after [push_back] of the points [new], one after the other. *)
Definition append_points (pc : VPointCloud) (new : list VPoint) : VPointCloud :=
  fold_left push_back new pc.

(** [pc'] is [pc] with the points [new] appended and counted. *)
Definition extends (pc pc' : VPointCloud) (new : list VPoint) : Prop :=
  pc' = append_points pc new.

(** [p] is the point that [unpack] appends for one of the records of the
    packet. *)
Definition record_point (hdr : rawdata_h) (this : RawData) (pkt : packet)
    (p : VPoint) : Prop :=
  exists i bank j pc,
    unpack_scan hdr this pkt i bank j pc = Done (push_back pc p).

(** ** [RawData::setup], whole *)

Module Setup.
Import Stdlib.Strings.String.

(** [velodyne_pointcloud::Calibration], as [setup] and [unpack] use it. *)
Record Calibration := {
  initialized : bool;
  read_corrections : Z -> LaserCorrection
}.

(** What [setup] asks of the node handle, of the package index and of the
    calibration reader, all outside the sources: the value of the parameter
    "calibration" if it is set, the path of the package, and what
    [calibration_.read(file)] makes of the calibration. *)
Record Environment := {
  calibration_param : option string;
  package_path : string;
  read : string -> (Z -> LaserCorrection) -> Calibration
}.

(** Line 106: the file of the unit tests, under the path of the package. *)
Definition test_calibration : string := "/params/64e_utexas.yaml".

(** Lines 100-107: the file name that [setup] stores in
    [config_.calibrationFile]: the parameter if it is set, the file of the
    unit tests otherwise. *)
Definition calibration_file_name (env : Environment) : string :=
  match calibration_param env with
  | Some file => file
  | None => (package_path env ++ test_calibration)%string
  end.

(** [config_] with [calibrationFile] assigned. *)
Definition with_calibrationFile (c : Config) (file : string) : Config :=
  {| calibrationFile := file;
     min_range := min_range c; max_range := max_range c;
     min_angle := min_angle c; max_angle := max_angle c;
     tmp_min_angle := tmp_min_angle c; tmp_max_angle := tmp_max_angle c |}.

(** Lines 81-125: the value returned and the decoder after the call.  The
    file name is stored in [config_.calibrationFile] and the calibration is
    read from the stored name. *)
Definition setup (env : Environment) (heading_cos heading_sin : Z -> spec_float)
    (this : RawData) : Z * RawData :=
  let config_' :=
    with_calibrationFile (config_ this) (calibration_file_name env) in
  let calibration_ :=
    read env (calibrationFile config_') (laser_corrections this) in
  let this' :=
    {| config_ := config_';
       laser_corrections := read_corrections calibration_;
       cos_rot_table_ := cos_rot_table_ this;
       sin_rot_table_ := sin_rot_table_ this |} in
  if negb (initialized calibration_) then (-1, this')
  else (0, setup_tables heading_cos heading_sin this').

End Setup.

(** ** Notions for the properties of [unpack] *)

(** [p] carries the ring of one of the lasers 0..63 and a byte as its
    intensity. *)
Definition laser_point (this : RawData) (p : VPoint) : Prop :=
  (exists n, 0 <= n <= 63 /\ ring p = laser_ring (laser_corrections this n))
  /\ 0 <= intensity p <= 255.

(** A node for examples: no "calibration" parameter, and a calibration file
    that is read, or not, into the same correction for every laser. *)
Module SampleNode.
Import Stdlib.Strings.String.

Definition env (readable : bool) : Setup.Environment :=
  {| Setup.calibration_param := None;
     Setup.package_path := "/opt/ros/share/velodyne_pointcloud"%string;
     Setup.read := fun _ _ =>
       {| Setup.initialized := readable;
          Setup.read_corrections := fun _ => Sample.plain_channel 0 255 |} |}.

(** The same node, launched with the parameter "calibration". *)
Definition launch_file : string := "/etc/velodyne/32db.yaml".

Definition launched (readable : bool) : Setup.Environment :=
  {| Setup.calibration_param := Some launch_file;
     Setup.package_path := "/opt/ros/share/velodyne_pointcloud"%string;
     Setup.read := fun _ _ =>
       {| Setup.initialized := readable;
          Setup.read_corrections := fun _ => Sample.plain_channel 0 255 |} |}.

(** The file of the unit tests in the package of the sample node. *)
Definition package_file : string :=
  "/opt/ros/share/velodyne_pointcloud/params/64e_utexas.yaml".

(** A decoder before [setup]: no table yet. *)
Definition fresh (c : Config) : RawData :=
  {| config_ := c;
     laser_corrections := fun _ => Sample.plain_channel 0 255;
     cos_rot_table_ := [];
     sin_rot_table_ := [] |}.

End SampleNode.

(** Two values of a format that are the same number, or the same infinity
    or NaN: equal, but for the sign of a zero. *)
Definition same_value (a b : spec_float) : Prop :=
  a = b \/ exists s s', a = S754_zero s /\ b = S754_zero s'.

(** * Properties *)

(** ** The tables after [setup] *)

Lemma rot_indices_length : Z.of_nat (length rot_indices) = ROTATION_MAX_UNITS.
Proof.
  unfold rot_indices; rewrite length_map, length_seq, Z2Nat.id;
    [reflexivity | unfold ROTATION_MAX_UNITS; lia].
Qed.

Lemma setup_tables_ready heading_cos heading_sin this :
  tables_ready (setup_tables heading_cos heading_sin this).
Proof.
  unfold tables_ready, setup_tables; cbn [cos_rot_table_ sin_rot_table_].
  rewrite !length_map; split; apply rot_indices_length.
Qed.

Lemma rot_indices_nth r :
  0 <= r < ROTATION_MAX_UNITS -> nth_error rot_indices (Z.to_nat r) = Some r.
Proof.
  intros Hr; unfold rot_indices.
  rewrite nth_error_map.
  rewrite (nth_error_nth' _ 0%nat) by (rewrite length_seq; lia).
  rewrite seq_nth by lia; simpl; f_equal; lia.
Qed.

(** Entry [r] of the tables is the cosine and the sine of heading [r]. *)
Lemma setup_tables_index heading_cos heading_sin this r :
  0 <= r < ROTATION_MAX_UNITS ->
  index (cos_rot_table_ (setup_tables heading_cos heading_sin this)) r
  = Done (heading_cos r)
  /\ index (sin_rot_table_ (setup_tables heading_cos heading_sin this)) r
     = Done (heading_sin r).
Proof.
  intros Hr; unfold index, setup_tables; cbn [cos_rot_table_ sin_rot_table_].
  destruct (Z.ltb_spec r 0); [lia |].
  rewrite !nth_error_map, (rot_indices_nth r Hr); split; reflexivity.
Qed.

Lemma decoder_tables c l : tables_ready (Sample.decoder c l).
Proof.
  apply setup_tables_ready.
Qed.

(** ** The loop body, case by case *)

Section ScanCases.
Variable hdr : rawdata_h.
Variable this : RawData.

Lemma Done_inj {A : Type} (a b : A) : Done a = Done b -> a = b.
Proof.
  intros H; apply (f_equal (fun o => match o with Done v => v | _ => a end)) in H.
  exact H.
Qed.

Lemma bind_Done {A B : Type} (c : outcome A) (k : A -> outcome B) (b : B) :
  (x <- c ;; k x) = Done b -> exists a, c = Done a /\ k a = Done b.
Proof.
  destruct c as [a|]; simpl; intros H; [exists a; split; trivial | discriminate].
Qed.

(** What a record that is decoded without a read outside an array does. *)
Lemma unpack_scan_Done pkt i bank j pc pc' :
  unpack_scan hdr this pkt i bank j pc = Done pc' ->
  exists b0 b1 r,
    block_data pkt i (j * RAW_SCAN_SIZE) = Done b0 /\
    block_data pkt i (j * RAW_SCAN_SIZE + 1) = Done b1 /\
    block_rotation pkt i = Done r /\
    if in_window (config_ this) r then
      exists cos_rot sin_rot raw_intensity,
        index (cos_rot_table_ this) r = Done cos_rot /\
        index (sin_rot_table_ this) r = Done sin_rot /\
        block_data pkt i (j * RAW_SCAN_SIZE + 2) = Done raw_intensity /\
        let corrections := laser_corrections this (laser_number bank j) in
        let raw := two_bytes_uint b0 b1 in
        pc' = if pointInRange (config_ this) (distance_of hdr corrections raw)
              then push_back pc
                     (point_of hdr corrections cos_rot sin_rot raw raw_intensity)
              else pc
    else pc' = pc.
Proof.
  unfold unpack_scan; intros H.
  apply bind_Done in H; destruct H as (b0 & Hb0 & H).
  apply bind_Done in H; destruct H as (b1 & Hb1 & H).
  apply bind_Done in H; destruct H as (r & Hr & H).
  exists b0, b1, r; repeat split; trivial.
  destruct (in_window (config_ this) r).
  - apply bind_Done in H; destruct H as (cr & Hcr & H).
    apply bind_Done in H; destruct H as (sr & Hsr & H).
    apply bind_Done in H; destruct H as (ri & Hri & H).
    exists cr, sr, ri; repeat split; trivial.
    cbv zeta.
    destruct (pointInRange _ _); congruence.
  - congruence.
Qed.

Lemma push_back_neq pc p : push_back pc p <> pc.
Proof.
  intros H; apply (f_equal (fun c => length (points c))) in H.
  cbn [push_back points] in H; rewrite length_app in H; simpl in H; lia.
Qed.

(** The same, read from the inputs to the result. *)
Lemma unpack_scan_rejected pkt i bank j pc b0 b1 r :
  block_data pkt i (j * RAW_SCAN_SIZE) = Done b0 ->
  block_data pkt i (j * RAW_SCAN_SIZE + 1) = Done b1 ->
  block_rotation pkt i = Done r ->
  in_window (config_ this) r = false ->
  unpack_scan hdr this pkt i bank j pc = Done pc.
Proof.
  intros H0 H1 Hr Hw; unfold unpack_scan.
  rewrite H0, H1; simpl; rewrite Hr; simpl; rewrite Hw; reflexivity.
Qed.

Lemma unpack_scan_accepted pkt i bank j pc b0 b1 r cos_rot sin_rot ri :
  block_data pkt i (j * RAW_SCAN_SIZE) = Done b0 ->
  block_data pkt i (j * RAW_SCAN_SIZE + 1) = Done b1 ->
  block_rotation pkt i = Done r ->
  in_window (config_ this) r = true ->
  index (cos_rot_table_ this) r = Done cos_rot ->
  index (sin_rot_table_ this) r = Done sin_rot ->
  block_data pkt i (j * RAW_SCAN_SIZE + 2) = Done ri ->
  let corrections := laser_corrections this (laser_number bank j) in
  let raw := two_bytes_uint b0 b1 in
  unpack_scan hdr this pkt i bank j pc =
  Done (if pointInRange (config_ this) (distance_of hdr corrections raw)
        then push_back pc (point_of hdr corrections cos_rot sin_rot raw ri)
        else pc).
Proof.
  intros H0 H1 Hr Hw Hc Hs Hi; unfold unpack_scan.
  rewrite H0, H1; simpl; rewrite Hr; simpl; rewrite Hw, Hc, Hs; simpl.
  rewrite Hi; simpl.
  destruct (pointInRange _ _); reflexivity.
Qed.

End ScanCases.

(** ** The angular window *)

(** The window test of the code: the first alternative asks for
    [min_angle < max_angle]. *)
Lemma in_window_iff c r :
  in_window c r = true <->
  (min_angle c < max_angle c /\ min_angle c <= r <= max_angle c)
  \/ (min_angle c > max_angle c /\ (r <= max_angle c \/ r >= min_angle c)).
Proof.
  unfold in_window.
  rewrite orb_true_iff, !andb_true_iff, orb_true_iff.
  rewrite !Z.geb_le, !Z.leb_le, Z.ltb_lt, Z.gtb_ltb, Z.ltb_lt.
  lia.
Qed.

(** [setParameters] never stores two equal angles. *)
Lemma setParameters_angles_differ before min_r max_r view_center left right :
  min_angle (setParameters before min_r max_r view_center left right)
  <> max_angle (setParameters before min_r max_r view_center left right).
Proof.
  unfold setParameters.
  destruct (Z.eqb_spec
              (hardware_angle (positive_modulo (F64.add view_center left)))
              (hardware_angle (positive_modulo (F64.sub view_center right))))
    as [E | E]; simpl; [lia | exact E].
Qed.

(** The hypothesis on the configuration matters: in a window whose two
    angles are equal, which [setParameters] never stores, the test with [<=]
    accepts rotation 100 of the window [100, 100] and the test of the code
    rejects it. *)
Lemma window_equal_angles_rejects :
  let c := Sample.window 100 100 in
  let this := Sample.decoder c (Sample.plain_channel 0 255) in
  spec_window c 100
  /\ block_rotation (Sample.uniform_packet 61183 100 1000 77) 0 = Done 100
  /\ in_window c 100 = false
  /\ unpack (Sample.hdl64 abs_float) this
       (Sample.uniform_packet 61183 100 1000 77) Sample.empty_cloud
     = Done Sample.empty_cloud.
Proof.
  cbv zeta; split; [| split; [| split]].
  - left; simpl; lia.
  - vm_compute; reflexivity.
  - vm_compute; reflexivity.
  - vm_compute; reflexivity.
Qed.

(** C1: for every block of a packet and every configuration that
    [setParameters] has stored, [unpack] produces a point for a record only
    when the rotation r of the block passes the window test, and r passes if
    and only if (min_angle <= max_angle and min_angle <= r <= max_angle) or
    (min_angle > max_angle and (r <= max_angle or r >= min_angle)); with
    min_angle 35000 and max_angle 1000, rotations 35500 and 500 pass and
    20000 does not; a rejected record leaves the cloud as it was. *)
Theorem unpack_angular_window hdr this pkt i bank j pc pc' r
    before min_r max_r view_center left right :
  config_ this = setParameters before min_r max_r view_center left right ->
  block_rotation pkt i = Done r ->
  unpack_scan hdr this pkt i bank j pc = Done pc' ->
  let c := config_ this in
  (in_window c r = true <->
     (min_angle c <= max_angle c /\ min_angle c <= r <= max_angle c)
     \/ (min_angle c > max_angle c /\ (r <= max_angle c \/ r >= min_angle c)))
  /\ (pc' <> pc -> in_window c r = true)
  /\ (in_window c r = false -> pc' = pc)
  /\ (min_angle c = 35000 -> max_angle c = 1000 ->
      in_window c 35500 = true /\ in_window c 500 = true
      /\ in_window c 20000 = false).
Proof.
  intros Hc Hr H c.
  assert (Hne : min_angle c <> max_angle c)
    by (unfold c; rewrite Hc; apply setParameters_angles_differ).
  apply unpack_scan_Done in H.
  destruct H as (b0 & b1 & r' & _ & _ & Hr' & H).
  assert (r' = r) by congruence; subst r'.
  fold c in H; clearbody c.
  split; [rewrite in_window_iff; lia |].
  split; [| split].
  - intros Hd. destruct (in_window c r); [reflexivity | contradiction].
  - intros Hw. rewrite Hw in H. exact H.
  - intros Hmin Hmax. unfold in_window. rewrite Hmin, Hmax.
    repeat split; reflexivity.
Qed.

Lemma unpack_angular_window_witness :
  let hdr := Sample.hdl64 abs_float in
  let c := Sample.stored_window in
  let this := Sample.decoder c (Sample.plain_channel 0 255) in
  let pkt := Sample.uniform_packet 61183 500 1000 77 in
  let pc := Sample.empty_cloud in
  let pc' := push_back pc
               (point_of hdr (Sample.plain_channel 0 255)
                  (F32.of_Z 1) F32.zero 1000 77) in
  config_ this
  = setParameters Sample.unset (F64.of_Z 1) (F64.of_Z 130) (F64.of_Z 0)
      Sample.ten_degrees Sample.ten_degrees
  /\ min_angle c = 35000 /\ max_angle c = 1000
  /\ block_rotation pkt 0 = Done 500
  /\ unpack_scan hdr this pkt 0 0 0 pc = Done pc'
  /\ in_window c 500 = true
  /\ in_window c 35500 = true
  /\ in_window c 20000 = false.
Proof.
  cbv zeta.
  assert (Hc : config_ (Sample.decoder Sample.stored_window
                          (Sample.plain_channel 0 255))
               = setParameters Sample.unset (F64.of_Z 1) (F64.of_Z 130)
                   (F64.of_Z 0) Sample.ten_degrees Sample.ten_degrees)
    by reflexivity.
  assert (Hmin : min_angle Sample.stored_window = 35000)
    by (vm_compute; reflexivity).
  assert (Hmax : max_angle Sample.stored_window = 1000)
    by (vm_compute; reflexivity).
  assert (Hr : block_rotation (Sample.uniform_packet 61183 500 1000 77) 0
               = Done 500) by (vm_compute; reflexivity).
  assert (Hs : unpack_scan (Sample.hdl64 abs_float)
                 (Sample.decoder Sample.stored_window
                    (Sample.plain_channel 0 255))
                 (Sample.uniform_packet 61183 500 1000 77) 0 0 0
                 Sample.empty_cloud
               = Done (push_back Sample.empty_cloud
                         (point_of (Sample.hdl64 abs_float)
                            (Sample.plain_channel 0 255)
                            (F32.of_Z 1) F32.zero 1000 77)))
    by (vm_compute; reflexivity).
  destruct (unpack_angular_window _ _ _ _ _ _ _ _ _ _ _ _ _ _ _ Hc Hr Hs)
    as (_ & _ & _ & Hex).
  destruct (Hex Hmin Hmax) as (H35500 & H500 & H20000).
  split; [exact Hc | split; [exact Hmin | split; [exact Hmax |]]].
  split; [exact Hr | split; [exact Hs |]].
  split; [exact H500 | split; [exact H35500 | exact H20000]].
Defined.

(** ** The bank of a block *)

(** C8: a block whose header is not the lower-bank sentinel, whatever its
    value, is decoded with bank origin 0, hence with the laser numbers 0..31;
    bank origin 32 is that of the lower-bank sentinel and of no other
    header. *)
Theorem bank_origin_of_header hdr this pkt i pc header :
  block_header pkt i = Done header ->
  (header <> LOWER_BANK hdr ->
     bank_origin hdr header = 0
     /\ (forall j, 0 <= j < SCANS_PER_BLOCK ->
           laser_number (bank_origin hdr header) j = j /\ 0 <= j <= 31)
     /\ unpack_block hdr this pkt i pc
        = unpack_scans hdr this pkt i 0 (Z.to_nat SCANS_PER_BLOCK) 0 pc)
  /\ (bank_origin hdr header = 32 <-> header = LOWER_BANK hdr).
Proof.
  intros Hh; unfold bank_origin; split.
  - intros Hne.
    assert (E : (header =? LOWER_BANK hdr) = false) by (apply Z.eqb_neq; exact Hne).
    split; [rewrite E; reflexivity |].
    split.
    + intros j Hj; rewrite E; unfold laser_number, SCANS_PER_BLOCK in *.
      rewrite Z.add_0_r, Z.mod_small by lia; lia.
    + unfold unpack_block, bank_origin; rewrite Hh; simpl; rewrite E; reflexivity.
  - destruct (Z.eqb_spec header (LOWER_BANK hdr)); split; intros; try easy.
Qed.

Lemma bank_origin_of_header_witness :
  let hdr := Sample.hdl64 abs_float in
  let pkt := Sample.uniform_packet 4660 500 1000 77 in
  block_header pkt 0 = Done 4660
  /\ 4660 <> LOWER_BANK hdr
  /\ bank_origin hdr 4660 = 0
  /\ laser_number (bank_origin hdr 4660) 31 = 31.
Proof.
  cbv zeta.
  assert (Hh : block_header (Sample.uniform_packet 4660 500 1000 77) 0
               = Done 4660) by (vm_compute; reflexivity).
  assert (Hne : 4660 <> LOWER_BANK (Sample.hdl64 abs_float))
    by (simpl; lia).
  destruct (bank_origin_of_header (Sample.hdl64 abs_float)
              (Sample.decoder (Sample.window 0 36000)
                 (Sample.plain_channel 0 255))
              _ 0 Sample.empty_cloud _ Hh) as (H & _).
  destruct (H Hne) as (H0 & Hj & _).
  split; [exact Hh | split; [exact Hne | split; [exact H0 |]]].
  apply (Hj 31); unfold SCANS_PER_BLOCK; lia.
Defined.

(** ** The window of [setParameters] *)

Lemma in_window_full_circle c r :
  min_angle c = 0 -> max_angle c = 36000 -> 0 <= r < 36000 ->
  in_window c r = true.
Proof.
  intros Hmin Hmax Hr; apply in_window_iff; left; lia.
Qed.

(** C4: when the two integer angles that [setParameters] computes are equal,
    the window it stores is min_angle = 0, max_angle = 36000, and the test of
    [unpack] accepts every rotation of [0, 36000) in that window. *)
Theorem setParameters_equal_angles before min_r max_r view_center left right :
  hardware_angle (positive_modulo (F64.add view_center left))
  = hardware_angle (positive_modulo (F64.sub view_center right)) ->
  let c := setParameters before min_r max_r view_center left right in
  min_angle c = 0 /\ max_angle c = 36000
  /\ forall r, 0 <= r < 36000 -> in_window c r = true.
Proof.
  intros Heq c.
  assert (H : min_angle c = 0 /\ max_angle c = 36000).
  { unfold c, setParameters. rewrite Heq, Z.eqb_refl. simpl. split; reflexivity. }
  destruct H as (Hmin & Hmax).
  repeat split; trivial.
  intros r Hr; apply in_window_full_circle; assumption.
Qed.

Lemma setParameters_equal_angles_witness :
  let c := setParameters Sample.unset (F64.of_Z 1) (F64.of_Z 130)
             (F64.of_Z 0) M_PI M_PI in
  hardware_angle (positive_modulo (F64.add (F64.of_Z 0) M_PI))
  = hardware_angle (positive_modulo (F64.sub (F64.of_Z 0) M_PI))
  /\ min_angle c = 0 /\ max_angle c = 36000
  /\ in_window c 35999 = true.
Proof.
  cbv zeta.
  assert (Heq : hardware_angle (positive_modulo (F64.add (F64.of_Z 0) M_PI))
                = hardware_angle (positive_modulo (F64.sub (F64.of_Z 0) M_PI)))
    by (vm_compute; reflexivity).
  destruct (setParameters_equal_angles Sample.unset (F64.of_Z 1) (F64.of_Z 130)
              (F64.of_Z 0) M_PI M_PI Heq) as (Hmin & Hmax & Hall).
  split; [exact Heq | split; [exact Hmin | split; [exact Hmax |]]].
  apply Hall; lia.
Defined.

(** ** The rotation tables *)

Lemma index_length {A : Type} (a : list A) (i : Z) :
  0 <= i < Z.of_nat (length a) -> exists v, index a i = Done v.
Proof.
  intros Hi; unfold index.
  destruct (Z.ltb_spec i 0); [lia |].
  destruct (nth_error a (Z.to_nat i)) as [v|] eqn:E; [exists v; reflexivity |].
  apply nth_error_None in E; lia.
Qed.

Lemma index_past_length {A : Type} (a : list A) (i : Z) :
  Z.of_nat (length a) <= i -> index a i = @OutOfBounds A.
Proof.
  intros Hi; unfold index.
  destruct (Z.ltb_spec i 0); [reflexivity |].
  destruct (nth_error a (Z.to_nat i)) as [v|] eqn:E; [| reflexivity].
  assert (nth_error a (Z.to_nat i) <> None) by congruence.
  apply nth_error_Some in H0; lia.
Qed.

(** C2 fails on the code: the rotation of a block is used as it is read, and
    a record whose rotation is 36000 or more and passes the window test makes
    [unpack] read the tables of [ROTATION_MAX_UNITS] entries past their
    end. *)
Theorem unpack_reads_past_rotation_tables hdr this pkt i bank j pc b0 b1 r :
  Z.of_nat (length (cos_rot_table_ this)) = ROTATION_MAX_UNITS ->
  block_data pkt i (j * RAW_SCAN_SIZE) = Done b0 ->
  block_data pkt i (j * RAW_SCAN_SIZE + 1) = Done b1 ->
  block_rotation pkt i = Done r ->
  ROTATION_MAX_UNITS <= r ->
  in_window (config_ this) r = true ->
  unpack_scan hdr this pkt i bank j pc = OutOfBounds.
Proof.
  intros Hlen H0 H1 Hr Hge Hw; unfold unpack_scan.
  rewrite H0, H1; simpl; rewrite Hr; simpl; rewrite Hw.
  rewrite index_past_length; [reflexivity |].
  rewrite Hlen; exact Hge.
Qed.

Lemma unpack_reads_past_rotation_tables_witness :
  let hdr := Sample.hdl64 abs_float in
  let this := Sample.decoder (Sample.window 35000 1000)
                (Sample.plain_channel 0 255) in
  let pkt := Sample.uniform_packet 61183 40000 1000 77 in
  Z.of_nat (length (cos_rot_table_ this)) = ROTATION_MAX_UNITS
  /\ block_rotation pkt 0 = Done 40000
  /\ in_window (config_ this) 40000 = true
  /\ unpack_scan hdr this pkt 0 0 0 Sample.empty_cloud = OutOfBounds.
Proof.
  cbv zeta.
  assert (Hlen : Z.of_nat (length (cos_rot_table_
                           (Sample.decoder (Sample.window 35000 1000)
                              (Sample.plain_channel 0 255))))
                 = ROTATION_MAX_UNITS)
    by exact (proj1 (decoder_tables _ _)).
  assert (H0 : block_data (Sample.uniform_packet 61183 40000 1000 77) 0
                 (0 * RAW_SCAN_SIZE) = Done 232) by (vm_compute; reflexivity).
  assert (H1 : block_data (Sample.uniform_packet 61183 40000 1000 77) 0
                 (0 * RAW_SCAN_SIZE + 1) = Done 3) by (vm_compute; reflexivity).
  assert (Hr : block_rotation (Sample.uniform_packet 61183 40000 1000 77) 0
               = Done 40000) by (vm_compute; reflexivity).
  assert (Hge : ROTATION_MAX_UNITS <= 40000) by (unfold ROTATION_MAX_UNITS; lia).
  assert (Hw : in_window (config_ (Sample.decoder (Sample.window 35000 1000)
                                     (Sample.plain_channel 0 255))) 40000
               = true) by (vm_compute; reflexivity).
  split; [exact Hlen | split; [exact Hr | split; [exact Hw |]]].
  exact (unpack_reads_past_rotation_tables (Sample.hdl64 abs_float) _ _ 0 0 0
           Sample.empty_cloud _ _ _ Hlen H0 H1 Hr Hge Hw).
Defined.

(** The same on whole packets: rotation 40000 in the wrapping window
    [35000, 1000], and rotation 36000 in the full-circle window [0, 36000]
    that [setParameters] stores for equal angles. *)
Example unpack_rotation_40000 :
  unpack (Sample.hdl64 abs_float)
    (Sample.decoder (Sample.window 35000 1000) (Sample.plain_channel 0 255))
    (Sample.uniform_packet 61183 40000 1000 77) Sample.empty_cloud
  = OutOfBounds.
Proof. vm_compute; reflexivity. Qed.

Example unpack_rotation_36000 :
  unpack (Sample.hdl64 abs_float)
    (Sample.decoder (Sample.window 0 36000) (Sample.plain_channel 0 255))
    (Sample.uniform_packet 61183 36000 1000 77) Sample.empty_cloud
  = OutOfBounds.
Proof. vm_compute; reflexivity. Qed.

(** ** The intensity correction *)

Lemma falloff_of_below raw : 0 <= raw < 65535 -> falloff_of raw = 256.
Proof.
  intros H; unfold falloff_of; rewrite Z.quot_small by lia; reflexivity.
Qed.

(** C3 fails on the code: [tmp.uint/65535] is a division of integers, so the
    falloff term is 256 for every raw distance below 65535 (it is 0 at
    65535), where the specification's term at raw distance 32768 is
    256 (32767/65535)^2; the correction added to the raw intensity is the
    same for every raw distance below 65535. *)
Theorem falloff_ignores_distance hdr corrections raw :
  0 <= raw < 65535 ->
  falloff_of raw = 256
  /\ intensity_correction_of hdr corrections raw
     = intensity_correction_of hdr corrections 0
  /\ falloff_of 65535 = 0
  /\ ~ (inject_Z (falloff_of 32768) == spec_falloff 32768)%Q.
Proof.
  intros H; split; [apply falloff_of_below; exact H |].
  split; [| split].
  - unfold intensity_correction_of.
    rewrite (falloff_of_below raw H), (falloff_of_below 0) by lia.
    reflexivity.
  - reflexivity.
  - vm_compute; discriminate.
Qed.

Lemma falloff_ignores_distance_witness :
  0 <= 32768 < 65535
  /\ falloff_of 32768 = 256
  /\ intensity_correction_of (Sample.hdl64 abs_float)
       (Sample.plain_channel 0 255) 32768
     = intensity_correction_of (Sample.hdl64 abs_float)
         (Sample.plain_channel 0 255) 0.
Proof.
  assert (H : 0 <= 32768 < 65535) by lia.
  destruct (falloff_ignores_distance (Sample.hdl64 abs_float)
              (Sample.plain_channel 0 255) 32768 H) as (H1 & H2 & _).
  split; [exact H | split; [exact H1 | exact H2]].
Defined.

(** ** [unpack] appends to the cloud *)

Lemma append_points_nil pc : append_points pc [] = pc.
Proof.
  reflexivity.
Qed.

Lemma append_points_app pc a b :
  append_points (append_points pc a) b = append_points pc (a ++ b).
Proof.
  unfold append_points; symmetry; apply fold_left_app.
Qed.

Lemma push_back_append pc p : push_back pc p = append_points pc [p].
Proof.
  reflexivity.
Qed.

Lemma append_points_points new : forall pc,
  points (append_points pc new) = points pc ++ new.
Proof.
  induction new as [| p new IH]; intros pc; cbn [append_points fold_left].
  - rewrite app_nil_r; reflexivity.
  - fold (append_points (push_back pc p) new); rewrite IH.
    cbn [push_back points]; rewrite <- app_assoc; reflexivity.
Qed.

(** The width after [new] has been appended: the 32-bit sum. *)
Lemma append_points_width new : forall pc,
  0 <= width pc < 2 ^ 32 ->
  width (append_points pc new)
  = (width pc + Z.of_nat (length new)) mod 2 ^ 32.
Proof.
  induction new as [| p new IH]; intros pc Hw; cbn [append_points fold_left].
  - cbn [length]; rewrite Z.add_0_r, Z.mod_small by exact Hw; reflexivity.
  - fold (append_points (push_back pc p) new); rewrite IH.
    + cbn [push_back width]; rewrite Zplus_mod_idemp_l.
      f_equal; cbn [length]; lia.
    + cbn [push_back width]; apply Z.mod_pos_bound; lia.
Qed.

Lemma append_points_width_exact new pc :
  0 <= width pc -> width pc + Z.of_nat (length new) < 2 ^ 32 ->
  width (append_points pc new) = width pc + Z.of_nat (length new).
Proof.
  intros H0 H1; rewrite append_points_width by lia.
  apply Z.mod_small; lia.
Qed.

Section Appends.
Variable hdr : rawdata_h.
Variable this : RawData.

Lemma extends_refl pc : extends pc pc [].
Proof.
  reflexivity.
Qed.

Lemma extends_trans pc1 pc2 pc3 n1 n2 :
  extends pc1 pc2 n1 -> extends pc2 pc3 n2 -> extends pc1 pc3 (n1 ++ n2).
Proof.
  unfold extends; intros H1 H2; subst pc2 pc3; apply append_points_app.
Qed.

Lemma extends_push_back pc p : extends pc (push_back pc p) [p].
Proof.
  reflexivity.
Qed.

Lemma unpack_scan_extends pkt i bank j pc pc' :
  unpack_scan hdr this pkt i bank j pc = Done pc' ->
  exists new, extends pc pc' new /\ Forall (record_point hdr this pkt) new.
Proof.
  intros H; pose proof H as H'; apply unpack_scan_Done in H.
  destruct H as (b0 & b1 & r & _ & _ & _ & H).
  destruct (in_window (config_ this) r).
  - destruct H as (cr & sr & ri & _ & _ & _ & H); cbv zeta in H.
    destruct (pointInRange _ _); subst pc'.
    + eexists; split; [apply extends_push_back |].
      constructor; [| constructor].
      exists i, bank, j, pc; exact H'.
    + exists []; split; [apply extends_refl | constructor].
  - subst pc'; exists []; split; [apply extends_refl | constructor].
Qed.

Lemma unpack_scans_extends pkt i bank n : forall j pc pc',
  unpack_scans hdr this pkt i bank n j pc = Done pc' ->
  exists new, extends pc pc' new /\ Forall (record_point hdr this pkt) new.
Proof.
  induction n as [| n IH]; simpl; intros j pc pc' H.
  - inversion H; subst; exists []; split; [apply extends_refl | constructor].
  - apply bind_Done in H; destruct H as (pc1 & H1 & H2).
    apply unpack_scan_extends in H1; destruct H1 as (n1 & E1 & F1).
    apply IH in H2; destruct H2 as (n2 & E2 & F2).
    exists (n1 ++ n2); split;
      [eapply extends_trans; eassumption | apply Forall_app; split; assumption].
Qed.

Lemma unpack_blocks_extends pkt n : forall i pc pc',
  unpack_blocks hdr this pkt n i pc = Done pc' ->
  exists new, extends pc pc' new /\ Forall (record_point hdr this pkt) new.
Proof.
  induction n as [| n IH]; simpl; intros i pc pc' H.
  - inversion H; subst; exists []; split; [apply extends_refl | constructor].
  - apply bind_Done in H; destruct H as (pc1 & H1 & H2).
    unfold unpack_block in H1.
    apply bind_Done in H1; destruct H1 as (h & _ & H1).
    apply unpack_scans_extends in H1; destruct H1 as (n1 & E1 & F1).
    apply IH in H2; destruct H2 as (n2 & E2 & F2).
    exists (n1 ++ n2); split;
      [eapply extends_trans; eassumption | apply Forall_app; split; assumption].
Qed.

(** The points that [unpack] appends are the points of records of the
    packet: what holds for the point of every record holds for every point
    appended. *)
Lemma unpack_points_are_records pkt pc pc' :
  unpack hdr this pkt pc = Done pc' ->
  exists new, extends pc pc' new /\ Forall (record_point hdr this pkt) new.
Proof.
  unfold unpack; apply unpack_blocks_extends.
Qed.

(** *** No read outside an array on a well-formed packet *)

Lemma byte_at_inside (pkt : packet) off :
  0 <= off < Z.of_nat (length pkt) ->
  exists b, byte_at pkt off = Done b /\ 0 <= b < 256.
Proof.
  intros H; unfold byte_at.
  destruct (index_length pkt off H) as (v & Hv); rewrite Hv; simpl.
  eexists; split; [reflexivity |].
  pose proof (Byte.to_N_bounded v); lia.
Qed.

Variable pkt : packet.
Hypothesis Hready : tables_ready this.
Hypothesis Hpkt : well_formed hdr pkt.

Lemma block_rotation_inside i :
  0 <= i < BLOCKS_PER_PACKET hdr ->
  exists r, block_rotation pkt i = Done r /\ 0 <= r < ROTATION_MAX_UNITS.
Proof.
  intros Hi; destruct Hpkt as (Hlen & Hrot).
  unfold SIZE_BLOCK, BLOCK_DATA_SIZE, SCANS_PER_BLOCK, RAW_SCAN_SIZE in Hlen.
  destruct (byte_at_inside pkt (SIZE_BLOCK * i + 2)) as (b0 & E0 & B0);
    [unfold SIZE_BLOCK, BLOCK_DATA_SIZE, SCANS_PER_BLOCK, RAW_SCAN_SIZE; lia |].
  destruct (byte_at_inside pkt (SIZE_BLOCK * i + 3)) as (b1 & E1 & B1);
    [unfold SIZE_BLOCK, BLOCK_DATA_SIZE, SCANS_PER_BLOCK, RAW_SCAN_SIZE; lia |].
  assert (E : block_rotation pkt i = Done (two_bytes_uint b0 b1))
    by (unfold block_rotation; rewrite E0, E1; reflexivity).
  exists (two_bytes_uint b0 b1); split; [exact E |].
  split; [unfold two_bytes_uint; lia | exact (Hrot i _ Hi E)].
Qed.

Lemma block_data_inside i k :
  0 <= i < BLOCKS_PER_PACKET hdr -> 0 <= k < BLOCK_DATA_SIZE ->
  exists b, block_data pkt i k = Done b.
Proof.
  intros Hi Hk; destruct Hpkt as (Hlen & _).
  unfold SIZE_BLOCK, BLOCK_DATA_SIZE, SCANS_PER_BLOCK, RAW_SCAN_SIZE in *.
  destruct (byte_at_inside pkt (100 * i + 4 + k)) as (b & E & _); [lia |].
  exists b; exact E.
Qed.

Lemma unpack_scan_defined i bank j pc :
  0 <= i < BLOCKS_PER_PACKET hdr -> 0 <= j < SCANS_PER_BLOCK ->
  exists pc', unpack_scan hdr this pkt i bank j pc = Done pc'.
Proof.
  intros Hi Hj.
  assert (Hk : 0 <= j * RAW_SCAN_SIZE /\ j * RAW_SCAN_SIZE + 2 < BLOCK_DATA_SIZE)
    by (unfold BLOCK_DATA_SIZE, SCANS_PER_BLOCK, RAW_SCAN_SIZE in *; lia).
  destruct (block_data_inside i (j * RAW_SCAN_SIZE) Hi) as (b0 & E0); [lia |].
  destruct (block_data_inside i (j * RAW_SCAN_SIZE + 1) Hi) as (b1 & E1); [lia |].
  destruct (block_data_inside i (j * RAW_SCAN_SIZE + 2) Hi) as (ri & Ei); [lia |].
  destruct (block_rotation_inside i Hi) as (r & Er & Br).
  destruct (in_window (config_ this) r) eqn:Hw.
  - destruct Hready as (Hc & Hs).
    destruct (index_length (cos_rot_table_ this) r) as (cr & Ec); [lia |].
    destruct (index_length (sin_rot_table_ this) r) as (sr & Es); [lia |].
    eexists.
    apply (unpack_scan_accepted hdr this pkt i bank j pc b0 b1 r cr sr ri);
      assumption.
  - exists pc.
    apply (unpack_scan_rejected hdr this pkt i bank j pc b0 b1 r); assumption.
Qed.

Lemma unpack_scans_defined i bank n : forall j pc,
  0 <= i < BLOCKS_PER_PACKET hdr ->
  0 <= j -> j + Z.of_nat n <= SCANS_PER_BLOCK ->
  exists pc', unpack_scans hdr this pkt i bank n j pc = Done pc'.
Proof.
  induction n as [| n IH]; intros j pc Hi Hj Hn; simpl.
  - exists pc; reflexivity.
  - destruct (unpack_scan_defined i bank j pc Hi) as (pc1 & E1); [lia |].
    rewrite E1; simpl.
    apply IH; [exact Hi | lia | lia].
Qed.

Lemma block_header_inside i :
  0 <= i < BLOCKS_PER_PACKET hdr -> exists h, block_header pkt i = Done h.
Proof.
  intros Hi; destruct Hpkt as (Hlen & _).
  unfold SIZE_BLOCK, BLOCK_DATA_SIZE, SCANS_PER_BLOCK, RAW_SCAN_SIZE in Hlen.
  unfold block_header.
  destruct (byte_at_inside pkt (SIZE_BLOCK * i)) as (b0 & E0 & _);
    [unfold SIZE_BLOCK, BLOCK_DATA_SIZE, SCANS_PER_BLOCK, RAW_SCAN_SIZE; lia |].
  destruct (byte_at_inside pkt (SIZE_BLOCK * i + 1)) as (b1 & E1 & _);
    [unfold SIZE_BLOCK, BLOCK_DATA_SIZE, SCANS_PER_BLOCK, RAW_SCAN_SIZE; lia |].
  rewrite E0, E1; eexists; reflexivity.
Qed.

Lemma unpack_blocks_defined n : forall i pc,
  0 <= i -> i + Z.of_nat n <= BLOCKS_PER_PACKET hdr ->
  exists pc', unpack_blocks hdr this pkt n i pc = Done pc'.
Proof.
  induction n as [| n IH]; intros i pc Hi Hn; cbn [unpack_blocks].
  - exists pc; reflexivity.
  - assert (Hi' : 0 <= i < BLOCKS_PER_PACKET hdr) by lia.
    destruct (block_header_inside i Hi') as (h & Eh).
    destruct (unpack_scans_defined i (bank_origin hdr h)
                (Z.to_nat SCANS_PER_BLOCK) 0 pc Hi') as (pc1 & E1);
      [lia | unfold SCANS_PER_BLOCK; simpl; lia |].
    unfold unpack_block; rewrite Eh; cbn [bind]; rewrite E1; cbn [bind].
    apply IH; lia.
Qed.

End Appends.

(** C9, as stated, fails for a cloud whose width is close to 2^32, the width
    being a 32-bit counter: a cloud of width 4294967295 has, after the 384
    points of a packet have been appended, the width 383, which is not the
    width before plus the number of points appended. *)
Lemma unpack_width_wraps :
  let hdr := Sample.hdl64 abs_float in
  let this := Sample.decoder (Sample.window 35000 1000)
                (Sample.plain_channel 0 255) in
  let pkt := Sample.uniform_packet 61183 500 1000 77 in
  let pc := {| points := []; width := 4294967295 |} in
  exists pc',
    unpack hdr this pkt pc = Done pc'
    /\ length (points pc') = 384%nat
    /\ width pc' = 383
    /\ ~ (exists new, points pc' = points pc ++ new
                      /\ width pc' = width pc + Z.of_nat (length new)).
Proof.
  cbv zeta.
  assert (E : exists pc',
             unpack (Sample.hdl64 abs_float)
               (Sample.decoder (Sample.window 35000 1000)
                  (Sample.plain_channel 0 255))
               (Sample.uniform_packet 61183 500 1000 77)
               {| points := []; width := 4294967295 |} = Done pc'
             /\ length (points pc') = 384%nat
             /\ width pc' = 383).
  { eexists; split; [vm_compute; reflexivity |].
    split; vm_compute; reflexivity. }
  destruct E as (pc' & E & L & W).
  exists pc'; split; [exact E | split; [exact L | split; [exact W |]]].
  intros (new & _ & Hw); rewrite W in Hw; cbn [width] in Hw; lia.
Qed.

(** C9 (amended): [unpack] only appends: whenever it returns, the points of
    the cloud before the call are a prefix of the points after it, and the
    width, a 32-bit counter, has grown by the number of points appended
    modulo 2^32: by exactly that number when the sum stays below 2^32; and
    on a well-formed packet, with the tables set up, it returns, the
    rejected records being dropped without an error. *)
Theorem unpack_only_appends hdr this pkt pc :
  (forall pc', unpack hdr this pkt pc = Done pc' ->
     exists new,
       points pc' = points pc ++ new
       /\ (0 <= width pc < 2 ^ 32 ->
           width pc' = (width pc + Z.of_nat (length new)) mod 2 ^ 32)
       /\ (0 <= width pc -> width pc + Z.of_nat (length new) < 2 ^ 32 ->
           width pc' = width pc + Z.of_nat (length new)))
  /\ (tables_ready this -> well_formed hdr pkt ->
      exists pc', unpack hdr this pkt pc = Done pc').
Proof.
  split.
  - intros pc' H.
    apply unpack_points_are_records in H.
    destruct H as (new & Hext & _); exists new.
    unfold extends in Hext; subst pc'.
    split; [apply append_points_points |].
    split; [apply append_points_width | apply append_points_width_exact].
  - intros Hready Hpkt; unfold unpack.
    destruct (Z.le_gt_cases 0 (BLOCKS_PER_PACKET hdr)) as [Hn | Hn].
    + apply unpack_blocks_defined; try assumption; [lia |].
      rewrite Z2Nat.id by assumption; lia.
    + destruct (BLOCKS_PER_PACKET hdr); try lia.
      exists pc; reflexivity.
Qed.

(** The sample packets are well formed. *)
Ltac sample_well_formed :=
  split;
  [ vm_compute; discriminate
  | let i := fresh "i" in
    let r := fresh "r" in
    let Hi := fresh "Hi" in
    let E := fresh "E" in
    intros i r Hi E;
    change (BLOCKS_PER_PACKET _) with 12 in Hi;
    assert (Hc : i = 0 \/ i = 1 \/ i = 2 \/ i = 3 \/ i = 4 \/ i = 5 \/ i = 6
                 \/ i = 7 \/ i = 8 \/ i = 9 \/ i = 10 \/ i = 11) by lia;
    repeat (destruct Hc as [Hc | Hc]);
    subst i; vm_compute in E; inversion E; reflexivity ].

Lemma unpack_only_appends_witness :
  let hdr := Sample.hdl64 abs_float in
  let this := Sample.decoder (Sample.window 35000 1000)
                (Sample.plain_channel 0 255) in
  let pkt := Sample.uniform_packet 61183 500 1000 77 in
  tables_ready this /\ well_formed hdr pkt
  /\ 0 <= width Sample.empty_cloud
  /\ exists pc' new,
       unpack hdr this pkt Sample.empty_cloud = Done pc'
       /\ points pc' = points Sample.empty_cloud ++ new
       /\ width Sample.empty_cloud + Z.of_nat (length new) < 2 ^ 32
       /\ width pc' = width Sample.empty_cloud + Z.of_nat (length new).
Proof.
  cbv zeta.
  assert (Hready : tables_ready
                     (Sample.decoder (Sample.window 35000 1000)
                        (Sample.plain_channel 0 255)))
    by apply decoder_tables.
  assert (Hpkt : well_formed (Sample.hdl64 abs_float)
                   (Sample.uniform_packet 61183 500 1000 77))
    by sample_well_formed.
  destruct (unpack_only_appends (Sample.hdl64 abs_float)
              (Sample.decoder (Sample.window 35000 1000)
                 (Sample.plain_channel 0 255))
              (Sample.uniform_packet 61183 500 1000 77) Sample.empty_cloud)
    as (Hext & Hdef).
  destruct (Hdef Hready Hpkt) as (pc' & Hrun).
  destruct (Hext pc' Hrun) as (new & Hpoints & _ & Hwidth).
  assert (H0 : 0 <= width Sample.empty_cloud) by (simpl; lia).
  assert (Hlen : length (points pc') = 384%nat).
  { assert (E : unpack (Sample.hdl64 abs_float)
                  (Sample.decoder (Sample.window 35000 1000)
                     (Sample.plain_channel 0 255))
                  (Sample.uniform_packet 61183 500 1000 77) Sample.empty_cloud
                = Done (append_points Sample.empty_cloud
                          (repeat (point_of (Sample.hdl64 abs_float)
                                     (Sample.plain_channel 0 255)
                                     (F32.of_Z 1) F32.zero 1000 77) 384)))
      by (vm_compute; reflexivity).
    assert (Hpc : Done pc' = Done (append_points Sample.empty_cloud
                          (repeat (point_of (Sample.hdl64 abs_float)
                                     (Sample.plain_channel 0 255)
                                     (F32.of_Z 1) F32.zero 1000 77) 384)))
      by (rewrite <- Hrun; exact E).
    apply Done_inj in Hpc; rewrite Hpc.
    rewrite append_points_points, length_app, repeat_length; reflexivity. }
  assert (Hsum : width Sample.empty_cloud + Z.of_nat (length new) < 2 ^ 32).
  { rewrite Hpoints in Hlen; cbn [Sample.empty_cloud points app] in Hlen.
    rewrite Hlen; cbn [Sample.empty_cloud width]; lia. }
  split; [exact Hready | split; [exact Hpkt | split; [exact H0 |]]].
  exists pc', new.
  split; [exact Hrun | split; [exact Hpoints | split; [exact Hsum |]]].
  exact (Hwidth H0 Hsum).
Defined.

(** ** Comparisons of IEEE values *)

Lemma SFcompare_refl x : Ieee.is_nan x = false -> SFcompare x x = Some Eq.
Proof.
  destruct x as [s | s | | s m e]; simpl; intros H; try discriminate.
  - reflexivity.
  - destruct s; reflexivity.
  - rewrite Z.compare_refl, Pos.compare_cont_refl; destruct s; reflexivity.
Qed.

Lemma SFcompare_antisym x y c :
  SFcompare x y = Some c -> SFcompare y x = Some (CompOpp c).
Proof.
  destruct x as [s1 | s1 | | s1 m1 e1], y as [s2 | s2 | | s2 m2 e2];
    simpl; intros H; inversion H; clear H;
    try (destruct s1; reflexivity); try (destruct s2; reflexivity);
    try (destruct s1, s2; reflexivity).
  rewrite (Z.compare_antisym e1 e2).
  assert (E : Pos.compare_cont Eq m2 m1 = CompOpp (Pos.compare_cont Eq m1 m2))
    by (rewrite Pos.compare_cont_antisym; reflexivity).
  rewrite E; clear E.
  destruct s1, s2; simpl; try reflexivity;
    destruct (e1 ?= e2); simpl; try reflexivity;
    destruct (Pos.compare_cont Eq m1 m2); reflexivity.
Qed.

Lemma leb_refl x : Ieee.is_nan x = false -> Ieee.leb x x = true.
Proof.
  intros H; unfold Ieee.leb, SFleb; rewrite SFcompare_refl by exact H.
  reflexivity.
Qed.

Lemma ltb_not_geb x y : Ieee.ltb x y = true -> Ieee.leb y x = false.
Proof.
  unfold Ieee.ltb, Ieee.leb, SFltb, SFleb.
  destruct (SFcompare x y) as [c |] eqn:E; [| discriminate].
  rewrite (SFcompare_antisym _ _ _ E).
  destruct c; simpl; congruence.
Qed.

Lemma leb_not_nan x y : Ieee.leb x y = true -> Ieee.is_nan x = false.
Proof.
  destruct x; simpl; trivial; discriminate.
Qed.

(** ** The range test *)

(** C5: a record that passes the window test gives a point if and only if
    min_range <= distance <= max_range, for the distance
    raw_distance * DISTANCE_RESOLUTION + dist_correction; a distance equal to
    min_range is accepted (when min_range <= max_range), a distance below
    min_range or above max_range is dropped. *)
Theorem unpack_range_test hdr this pkt i bank j pc b0 b1 r cos_rot sin_rot ri :
  block_data pkt i (j * RAW_SCAN_SIZE) = Done b0 ->
  block_data pkt i (j * RAW_SCAN_SIZE + 1) = Done b1 ->
  block_rotation pkt i = Done r ->
  in_window (config_ this) r = true ->
  index (cos_rot_table_ this) r = Done cos_rot ->
  index (sin_rot_table_ this) r = Done sin_rot ->
  block_data pkt i (j * RAW_SCAN_SIZE + 2) = Done ri ->
  let c := config_ this in
  let corrections := laser_corrections this (laser_number bank j) in
  let distance :=
    F32.add (F32.mul (F32.of_Z (two_bytes_uint b0 b1)) (DISTANCE_RESOLUTION hdr))
            (dist_correction corrections) in
  let d := F64.of_single distance in
  let emitted :=
    exists p, unpack_scan hdr this pkt i bank j pc = Done (push_back pc p) in
  let dropped := unpack_scan hdr this pkt i bank j pc = Done pc in
  (emitted <->
     Ieee.leb (min_range c) d = true /\ Ieee.leb d (max_range c) = true)
  /\ (emitted \/ dropped)
  /\ (d = min_range c -> Ieee.leb (min_range c) (max_range c) = true ->
      emitted)
  /\ (Ieee.ltb d (min_range c) = true -> dropped)
  /\ (Ieee.ltb (max_range c) d = true -> dropped).
Proof.
  intros H0 H1 Hr Hw Hc Hs Hi c corrections distance d emitted dropped.
  pose proof (unpack_scan_accepted hdr this pkt i bank j pc b0 b1 r
                cos_rot sin_rot ri H0 H1 Hr Hw Hc Hs Hi) as E.
  cbv zeta in E.
  change (distance_of hdr (laser_corrections this (laser_number bank j))
            (two_bytes_uint b0 b1)) with distance in E.
  fold c in E.
  assert (Hin : pointInRange c distance
                = Ieee.leb (min_range c) d && Ieee.leb d (max_range c))
    by reflexivity.
  assert (Hiff : emitted <->
            Ieee.leb (min_range c) d = true /\ Ieee.leb d (max_range c) = true).
  { unfold emitted; rewrite E, <- andb_true_iff, <- Hin.
    destruct (pointInRange c distance); split.
    - reflexivity.
    - intros _; eexists; reflexivity.
    - intros (p & Hp); inversion Hp as [Hp'].
      symmetry in Hp'; apply push_back_neq in Hp'; contradiction.
    - discriminate. }
  assert (Hdrop : pointInRange c distance = false -> dropped).
  { intros Hf; unfold dropped; rewrite E, Hf; reflexivity. }
  split; [exact Hiff |].
  split; [| split; [| split]].
  - destruct (pointInRange c distance) eqn:Hp.
    + left; apply Hiff; apply andb_true_iff; rewrite <- Hin; reflexivity.
    + right; apply Hdrop; reflexivity.
  - intros Hd Hle; apply Hiff; rewrite Hd; split; [| exact Hle].
    apply leb_refl; apply (leb_not_nan _ _ Hle).
  - intros Hlt; apply Hdrop; rewrite Hin.
    rewrite (ltb_not_geb _ _ Hlt); reflexivity.
  - intros Hlt; apply Hdrop; rewrite Hin.
    rewrite (ltb_not_geb _ _ Hlt); apply andb_false_r.
Qed.

Lemma unpack_range_test_witness :
  let hdr := Sample.hdl64 abs_float in
  let c := Sample.config 2 130 35000 1000 in
  let l := Sample.plain_channel 0 255 in
  let this := Sample.decoder c l in
  let distance raw :=
    F64.of_single
      (F32.add (F32.mul (F32.of_Z raw) (DISTANCE_RESOLUTION hdr))
               (dist_correction l)) in
  (* raw distance 1000: the distance is min_range *)
  (distance (two_bytes_uint 232 3) = min_range c
   /\ Ieee.leb (min_range c) (max_range c) = true
   /\ exists p,
        unpack_scan hdr this (Sample.uniform_packet 61183 500 1000 77) 0 0 0
          Sample.empty_cloud
        = Done (push_back Sample.empty_cloud p))
  (* raw distance 100: below min_range *)
  /\ (Ieee.ltb (distance (two_bytes_uint 100 0)) (min_range c) = true
      /\ unpack_scan hdr this (Sample.uniform_packet 61183 500 100 77) 0 0 0
           Sample.empty_cloud
         = Done Sample.empty_cloud)
  (* raw distance 65535: above max_range *)
  /\ (Ieee.ltb (max_range c) (distance (two_bytes_uint 255 255)) = true
      /\ unpack_scan hdr this (Sample.uniform_packet 61183 500 65535 77) 0 0 0
           Sample.empty_cloud
         = Done Sample.empty_cloud).
Proof.
  cbv zeta.
  set (hdr := Sample.hdl64 abs_float).
  set (c := Sample.config 2 130 35000 1000).
  set (l := Sample.plain_channel 0 255).
  set (this := Sample.decoder c l).
  assert (Hw : in_window (config_ this) 500 = true) by (vm_compute; reflexivity).
  assert (Hc : index (cos_rot_table_ this) 500 = Done (F32.of_Z 1))
    by (vm_compute; reflexivity).
  assert (Hs : index (sin_rot_table_ this) 500 = Done F32.zero)
    by (vm_compute; reflexivity).
  split; [| split].
  - set (pkt := Sample.uniform_packet 61183 500 1000 77).
    assert (H0 : block_data pkt 0 (0 * RAW_SCAN_SIZE) = Done 232)
      by (vm_compute; reflexivity).
    assert (H1 : block_data pkt 0 (0 * RAW_SCAN_SIZE + 1) = Done 3)
      by (vm_compute; reflexivity).
    assert (Hr : block_rotation pkt 0 = Done 500) by (vm_compute; reflexivity).
    assert (Hi : block_data pkt 0 (0 * RAW_SCAN_SIZE + 2) = Done 77)
      by (vm_compute; reflexivity).
    pose proof (unpack_range_test hdr this pkt 0 0 0 Sample.empty_cloud
                  232 3 500 _ _ 77 H0 H1 Hr Hw Hc Hs Hi) as T.
    cbv zeta in T.
    destruct T as (_ & _ & Hmin & _).
    assert (Hd : F64.of_single
                   (F32.add (F32.mul (F32.of_Z (two_bytes_uint 232 3))
                                     (DISTANCE_RESOLUTION hdr))
                            (dist_correction l))
                 = min_range c) by (vm_compute; reflexivity).
    assert (Hle : Ieee.leb (min_range c) (max_range c) = true)
      by (vm_compute; reflexivity).
    split; [exact Hd | split; [exact Hle | exact (Hmin Hd Hle)]].
  - set (pkt := Sample.uniform_packet 61183 500 100 77).
    assert (H0 : block_data pkt 0 (0 * RAW_SCAN_SIZE) = Done 100)
      by (vm_compute; reflexivity).
    assert (H1 : block_data pkt 0 (0 * RAW_SCAN_SIZE + 1) = Done 0)
      by (vm_compute; reflexivity).
    assert (Hr : block_rotation pkt 0 = Done 500) by (vm_compute; reflexivity).
    assert (Hi : block_data pkt 0 (0 * RAW_SCAN_SIZE + 2) = Done 77)
      by (vm_compute; reflexivity).
    pose proof (unpack_range_test hdr this pkt 0 0 0 Sample.empty_cloud
                  100 0 500 _ _ 77 H0 H1 Hr Hw Hc Hs Hi) as T.
    cbv zeta in T.
    destruct T as (_ & _ & _ & Hbelow & _).
    assert (Hlt : Ieee.ltb
                    (F64.of_single
                       (F32.add (F32.mul (F32.of_Z (two_bytes_uint 100 0))
                                         (DISTANCE_RESOLUTION hdr))
                                (dist_correction l)))
                    (min_range c) = true) by (vm_compute; reflexivity).
    split; [exact Hlt | exact (Hbelow Hlt)].
  - set (pkt := Sample.uniform_packet 61183 500 65535 77).
    assert (H0 : block_data pkt 0 (0 * RAW_SCAN_SIZE) = Done 255)
      by (vm_compute; reflexivity).
    assert (H1 : block_data pkt 0 (0 * RAW_SCAN_SIZE + 1) = Done 255)
      by (vm_compute; reflexivity).
    assert (Hr : block_rotation pkt 0 = Done 500) by (vm_compute; reflexivity).
    assert (Hi : block_data pkt 0 (0 * RAW_SCAN_SIZE + 2) = Done 77)
      by (vm_compute; reflexivity).
    pose proof (unpack_range_test hdr this pkt 0 0 0 Sample.empty_cloud
                  255 255 500 _ _ 77 H0 H1 Hr Hw Hc Hs Hi) as T.
    cbv zeta in T.
    destruct T as (_ & _ & _ & _ & Habove).
    assert (Hgt : Ieee.ltb (max_range c)
                    (F64.of_single
                       (F32.add (F32.mul (F32.of_Z (two_bytes_uint 255 255))
                                         (DISTANCE_RESOLUTION hdr))
                                (dist_correction l)))
                  = true) by (vm_compute; reflexivity).
    split; [exact Hgt | exact (Habove Hgt)].
Defined.

(** ** The two-point distance correction *)

Lemma make_positive_not_negative v :
  Ieee.ltb (make_positive v) (S754_zero false) = false.
Proof.
  unfold make_positive; change (F32.of_Z 0) with (S754_zero false).
  destruct (Ieee.ltb v (S754_zero false)) eqn:E; [| exact E].
  destruct v as [s | s | | s m e]; try discriminate;
    destruct s; try discriminate; reflexivity.
Qed.

Lemma add_zero_same d :
  Ieee.is_nan d = false ->
  SFcompare (F32.add d (S754_zero false)) d = Some Eq.
Proof.
  intros Hn; unfold F32.add, Ieee.add.
  destruct d as [s | s | | s m e]; try discriminate.
  - destruct s; reflexivity.
  - destruct s; reflexivity.
  - cbn [SFadd]; apply SFcompare_refl; reflexivity.
Qed.

(** C7: the x and y of a point are computed from the distance to which a
    correction term is added, a term for each axis.  When the channel has no
    two-point correction both terms are zero, and the corrected distances
    equal the distance; when it has one, the x term is
    (dist_correction - dist_correction_x) (xx - 2.4) / (25.04 - 2.4)
    + dist_correction_x and the y term is
    (dist_correction - dist_correction_y) (yy - 1.93) / (25.04 - 1.93)
    + dist_correction_y, for the offsets xx and yy, which are not negative. *)
Theorem two_point_distance_correction hdr corrections cos_rot sin_rot raw ri :
  let distance := distance_of hdr corrections raw in
  let cos_rot_angle := cos_rot_angle_of corrections cos_rot sin_rot in
  let sin_rot_angle := sin_rot_angle_of corrections cos_rot sin_rot in
  let xx := xx_of corrections distance cos_rot_angle sin_rot_angle in
  let yy := yy_of corrections distance cos_rot_angle sin_rot_angle in
  let corr_x := distance_corr_x_of corrections xx in
  let corr_y := distance_corr_y_of corrections yy in
  let p := point_of hdr corrections cos_rot sin_rot raw ri in
  let dc := dist_correction corrections in
  let dcx := dist_correction_x corrections in
  let dcy := dist_correction_y corrections in
  y p = Ieee.opp (x_of corrections distance corr_x cos_rot_angle sin_rot_angle)
  /\ x p = y_of corrections distance corr_y cos_rot_angle sin_rot_angle
  /\ Ieee.ltb xx (S754_zero false) = false
  /\ Ieee.ltb yy (S754_zero false) = false
  /\ (two_pt_correction_available corrections = false ->
      corr_x = S754_zero false /\ corr_y = S754_zero false
      /\ (Ieee.is_nan distance = false ->
          SFcompare (F32.add distance corr_x) distance = Some Eq
          /\ SFcompare (F32.add distance corr_y) distance = Some Eq))
  /\ (two_pt_correction_available corrections = true ->
      corr_x
      = F32.of_double
          (F64.add
             (F64.div
                (F64.mul (F64.of_single (F32.sub dc dcx))
                         (F64.sub (F64.of_single xx) (F64.literal 24 10)))
                (F64.sub (F64.literal 2504 100) (F64.literal 24 10)))
             (F64.of_single dcx))
      /\ corr_y
         = F32.of_double
             (F64.add
                (F64.div
                   (F64.mul (F64.of_single (F32.sub dc dcy))
                            (F64.sub (F64.of_single yy) (F64.literal 193 100)))
                   (F64.sub (F64.literal 2504 100) (F64.literal 193 100)))
                (F64.of_single dcy))).
Proof.
  intros distance cos_rot_angle sin_rot_angle xx yy corr_x corr_y p dc dcx dcy.
  split; [reflexivity | split; [reflexivity |]].
  split; [apply make_positive_not_negative |].
  split; [apply make_positive_not_negative |].
  split.
  - intros Hno.
    assert (Ex : corr_x = S754_zero false)
      by (unfold corr_x, distance_corr_x_of; rewrite Hno; reflexivity).
    assert (Ey : corr_y = S754_zero false)
      by (unfold corr_y, distance_corr_y_of; rewrite Hno; reflexivity).
    split; [exact Ex | split; [exact Ey |]].
    intros Hn; rewrite Ex, Ey.
    split; apply add_zero_same; assumption.
  - intros Hyes.
    unfold corr_x, corr_y, distance_corr_x_of, distance_corr_y_of.
    rewrite Hyes; split; reflexivity.
Qed.

Lemma two_point_distance_correction_witness :
  let hdr := Sample.hdl64 abs_float in
  let one := F32.of_Z 1 in
  (two_pt_correction_available Sample.two_point_channel = true
   /\ Ieee.ltb (xx_of Sample.two_point_channel
                  (distance_of hdr Sample.two_point_channel 1000)
                  (cos_rot_angle_of Sample.two_point_channel one F32.zero)
                  (sin_rot_angle_of Sample.two_point_channel one F32.zero))
        (S754_zero false) = false)
  /\ (two_pt_correction_available (Sample.plain_channel 0 255) = false
      /\ distance_corr_x_of (Sample.plain_channel 0 255)
           (xx_of (Sample.plain_channel 0 255)
              (distance_of hdr (Sample.plain_channel 0 255) 1000)
              (cos_rot_angle_of (Sample.plain_channel 0 255) one F32.zero)
              (sin_rot_angle_of (Sample.plain_channel 0 255) one F32.zero))
         = S754_zero false).
Proof.
  cbv zeta; split.
  - pose proof (two_point_distance_correction (Sample.hdl64 abs_float)
                  Sample.two_point_channel (F32.of_Z 1) F32.zero 1000 77) as T.
    cbv zeta in T.
    destruct T as (_ & _ & Hxx & _ & _ & Hyes).
    destruct (Hyes eq_refl) as (_ & _).
    split; [reflexivity | exact Hxx].
  - pose proof (two_point_distance_correction (Sample.hdl64 abs_float)
                  (Sample.plain_channel 0 255) (F32.of_Z 1) F32.zero 1000 77)
      as T.
    cbv zeta in T.
    destruct T as (_ & _ & _ & _ & Hno & _).
    destruct (Hno eq_refl) as (Hx & _).
    split; [reflexivity | exact Hx].
Defined.

(** ** Numbers of binary32 and their order *)

Lemma digits2_pos_bounds m :
  2 ^ (Zpos (digits2_pos m) - 1) <= Zpos m < 2 ^ Zpos (digits2_pos m).
Proof.
  induction m as [p IH | p IH |]; cbn [digits2_pos].
  - rewrite Pos2Z.inj_succ.
    replace (Z.succ (Zpos (digits2_pos p)) - 1)
      with (Z.succ (Zpos (digits2_pos p) - 1)) by lia.
    rewrite !Z.pow_succ_r by lia. lia.
  - rewrite Pos2Z.inj_succ.
    replace (Z.succ (Zpos (digits2_pos p)) - 1)
      with (Z.succ (Zpos (digits2_pos p) - 1)) by lia.
    rewrite !Z.pow_succ_r by lia. lia.
  - simpl; lia.
Qed.

Lemma valid_finite s m e :
  F32.valid (S754_finite s m e) = true ->
  -149 <= e <= 104 /\ Zpos m < 2 ^ 24 /\ (e = -149 \/ 2 ^ 23 <= Zpos m).
Proof.
  unfold F32.valid, Ieee.valid, valid_binary, bounded, canonical_mantissa,
    fexp, emin, F32.prec, F32.emax.
  rewrite andb_true_iff, Z.eqb_eq, Z.leb_le.
  intros (Hc & He).
  pose proof (digits2_pos_bounds m) as (Hlo & Hhi).
  set (d := Zpos (digits2_pos m)) in *.
  assert (Hd : 1 <= d) by (unfold d; lia).
  destruct (Z.max_spec (d + e - 24) (3 - 128 - 24)) as [(Hlt & Hm) | (Hge & Hm)];
    rewrite Hm in Hc.
  - (* subnormal: e is the least exponent, fewer than 24 digits *)
    assert (Hd24 : d <= 24) by lia.
    split; [lia |].
    split; [| left; lia].
    apply Z.lt_le_trans with (2 ^ d); [exact Hhi |].
    apply Z.pow_le_mono_r; lia.
  - (* normal: 24 digits *)
    assert (Hd24 : d = 24) by lia.
    rewrite Hd24 in Hlo, Hhi.
    split; [lia |].
    split; [exact Hhi | right; exact Hlo].
Qed.

(** The magnitudes of two numbers compare as their exponents do, and as
    their mantissas when the exponents are equal. *)
Lemma compare_magnitudes s1 m1 e1 s2 m2 e2 :
  F32.valid (S754_finite s1 m1 e1) = true ->
  F32.valid (S754_finite s2 m2 e2) = true ->
  match e1 ?= e2 with
  | Lt => Lt
  | Gt => Gt
  | Eq => Pos.compare_cont Eq m1 m2
  end
  = (Zpos m1 * 2 ^ (e1 + 149) ?= Zpos m2 * 2 ^ (e2 + 149)).
Proof.
  intros H1 H2.
  apply valid_finite in H1; destruct H1 as (He1 & Hm1 & Hn1).
  apply valid_finite in H2; destruct H2 as (He2 & Hm2 & Hn2).
  assert (Hstep : forall ma ea mb eb,
             -149 <= ea -> ea < eb -> Zpos ma < 2 ^ 24 -> 2 ^ 23 <= Zpos mb ->
             Zpos ma * 2 ^ (ea + 149) < Zpos mb * 2 ^ (eb + 149)).
  { intros ma ea mb eb Hea Hlt Hma Hmb.
    replace (eb + 149) with ((ea + 149) + (eb - ea)) by lia.
    rewrite (Z.pow_add_r 2 (ea + 149) (eb - ea)) by lia.
    assert (HP : 0 < 2 ^ (ea + 149)) by (apply Z.pow_pos_nonneg; lia).
    assert (HK : 2 ^ 1 <= 2 ^ (eb - ea)) by (apply Z.pow_le_mono_r; lia).
    change (2 ^ 1) with 2 in HK.
    change (2 ^ 24) with 16777216 in Hma.
    change (2 ^ 23) with 8388608 in Hmb.
    set (P := 2 ^ (ea + 149)) in *.
    set (K := 2 ^ (eb - ea)) in *.
    apply Z.lt_le_trans with (16777216 * P);
      [apply Z.mul_lt_mono_pos_r; assumption |].
    replace (16777216 * P) with (8388608 * (P * 2)) by ring.
    apply Z.mul_le_mono_nonneg; try lia.
    apply Z.mul_le_mono_nonneg_l; lia. }
  destruct (Z.compare_spec e1 e2) as [Heq | Hlt | Hgt]; symmetry.
  - subst e2.
    assert (HP : 0 < 2 ^ (e1 + 149)) by (apply Z.pow_pos_nonneg; lia).
    change (Pos.compare_cont Eq m1 m2) with (m1 ?= m2)%positive.
    destruct (Pos.compare_spec m1 m2) as [E | L | G].
    + subst m2; apply Z.compare_refl.
    + apply Z.compare_lt_iff; apply Z.mul_lt_mono_pos_r; [exact HP | lia].
    + apply Z.compare_gt_iff; apply Z.mul_lt_mono_pos_r; [exact HP | lia].
  - apply Z.compare_lt_iff; apply Hstep; lia.
  - apply Z.compare_gt_iff; apply Hstep; lia.
Qed.

Lemma scaled_finite_sign s m e :
  F32.valid (S754_finite s m e) = true ->
  if s then F32.scaled (S754_finite s m e) < 0
  else 0 < F32.scaled (S754_finite s m e).
Proof.
  intros H; apply valid_finite in H; destruct H as (He & _).
  assert (HP : 0 < 2 ^ (e + 149)) by (apply Z.pow_pos_nonneg; lia).
  assert (HM : 0 < Zpos m * 2 ^ (e + 149)) by (apply Z.mul_pos_pos; lia).
  unfold F32.scaled, cond_Zopp; destruct s; lia.
Qed.

(** On the numbers of binary32 the comparison of [SpecFloat] is the order of
    their values. *)
Lemma compare_scaled x y :
  F32.valid x = true -> F32.valid y = true ->
  Ieee.is_finite x = true -> Ieee.is_finite y = true ->
  SFcompare x y = Some (F32.scaled x ?= F32.scaled y).
Proof.
  intros Hx Hy Fx Fy.
  destruct x as [s1 | s1 | | s1 m1 e1]; try discriminate;
    destruct y as [s2 | s2 | | s2 m2 e2]; try discriminate.
  - reflexivity.
  - pose proof (scaled_finite_sign _ _ _ Hy) as Hs.
    cbn [SFcompare]; change (F32.scaled (S754_zero s1)) with 0.
    destruct s2; f_equal; symmetry;
      [apply Z.compare_gt_iff | apply Z.compare_lt_iff]; exact Hs.
  - pose proof (scaled_finite_sign _ _ _ Hx) as Hs.
    cbn [SFcompare]; change (F32.scaled (S754_zero s2)) with 0.
    destruct s1; f_equal; symmetry;
      [apply Z.compare_lt_iff | apply Z.compare_gt_iff]; exact Hs.
  - pose proof (scaled_finite_sign _ _ _ Hx) as Hsx.
    pose proof (scaled_finite_sign _ _ _ Hy) as Hsy.
    pose proof (compare_magnitudes _ _ _ _ _ _ Hx Hy) as Hm.
    cbn [SFcompare]; f_equal.
    destruct s1, s2.
    + (* both negative: the order of the magnitudes, reversed *)
      unfold F32.scaled, cond_Zopp.
      rewrite Z.compare_opp, (Z.compare_antisym _ (Zpos m2 * _)), <- Hm.
      destruct (e1 ?= e2); try reflexivity.
    + symmetry; apply Z.compare_lt_iff; lia.
    + symmetry; apply Z.compare_gt_iff; lia.
    + unfold F32.scaled, cond_Zopp; rewrite <- Hm; reflexivity.
Qed.

Lemma not_ltb_scaled x y :
  F32.valid x = true -> F32.valid y = true ->
  Ieee.is_finite x = true -> Ieee.is_finite y = true ->
  Ieee.ltb x y = false -> F32.scaled y <= F32.scaled x.
Proof.
  intros Hx Hy Fx Fy; unfold Ieee.ltb, SFltb.
  rewrite (compare_scaled x y Hx Hy Fx Fy).
  destruct (Z.compare_spec (F32.scaled x) (F32.scaled y)); intros Hc;
    [lia | discriminate | lia].
Qed.

(** The integer part of a number is the quotient of its value in units of
    2^-149 by 2^149. *)
Lemma trunc_scaled x :
  F32.valid x = true -> Ieee.is_finite x = true ->
  Ieee.trunc x = Some (Z.quot (F32.scaled x) (2 ^ 149)).
Proof.
  intros Hx Fx.
  destruct x as [s | s | | s m e]; try discriminate.
  - reflexivity.
  - apply valid_finite in Hx; destruct Hx as (He & _).
    unfold Ieee.trunc, F32.scaled; f_equal.
    assert (Hmag : match e with
                   | Zneg p => Z.shiftr (Zpos m) (Zpos p)
                   | _ => Z.shiftl (Zpos m) e
                   end = Z.quot (Zpos m * 2 ^ (e + 149)) (2 ^ 149)).
    { destruct e as [| p | p].
      - rewrite Z.shiftl_0_r; change (0 + 149) with 149.
        rewrite Z.quot_mul; [reflexivity | apply Z.pow_nonzero; lia].
      - rewrite Z.shiftl_mul_pow2 by lia.
        rewrite Z.pow_add_r by lia.
        rewrite Z.mul_assoc, Z.quot_mul; [reflexivity | apply Z.pow_nonzero; lia].
      - rewrite Z.shiftr_div_pow2 by lia.
        replace (2 ^ 149) with (2 ^ Zpos p * 2 ^ (Zneg p + 149)).
        + rewrite Z.quot_mul_cancel_r by (apply Z.pow_nonzero; lia).
          symmetry; apply Z.quot_div_nonneg; [lia |].
          apply Z.pow_pos_nonneg; lia.
        + rewrite <- Z.pow_add_r by lia.
          f_equal; lia. }
    rewrite Hmag; destruct s; unfold cond_Zopp; [| reflexivity].
    rewrite Z.quot_opp_l by (apply Z.pow_nonzero; lia); reflexivity.
Qed.

(** The integers 0..255 are numbers of binary32, converted exactly. *)
Lemma byte_values_exact n :
  0 <= n <= 255 ->
  F32.valid (F32.of_Z n) = true
  /\ Ieee.is_finite (F32.of_Z n) = true
  /\ F32.scaled (F32.of_Z n) = n * 2 ^ 149.
Proof.
  intros Hn.
  assert (Hall : forallb (fun k => F32.valid (F32.of_Z k)
                                  && (Ieee.is_finite (F32.of_Z k)
                                      && (F32.scaled (F32.of_Z k)
                                          =? k * 2 ^ 149)))
                   (map Z.of_nat (seq 0 256)) = true)
    by (vm_compute; reflexivity).
  rewrite forallb_forall in Hall.
  specialize (Hall n).
  rewrite !andb_true_iff, Z.eqb_eq in Hall; apply Hall.
  apply in_map_iff; exists (Z.to_nat n); split; [lia |].
  apply in_seq; lia.
Qed.

(** ** The intensity of a point *)

(** Clamping between two integers of 0..255 gives a number whose integer part
    is between them, whatever number or infinity is clamped. *)
Lemma clamp_between_bytes lo hi v :
  0 <= lo <= hi -> hi <= 255 ->
  F32.valid v = true -> Ieee.is_nan v = false ->
  exists t, Ieee.trunc (clamp (F32.of_Z lo) (F32.of_Z hi) v) = Some t
            /\ lo <= t <= hi.
Proof.
  intros Hlo Hhi Hv Hn.
  destruct (byte_values_exact lo) as (VL & FL & SL); [lia |].
  destruct (byte_values_exact hi) as (VH & FH & SH); [lia |].
  assert (HP : 0 < 2 ^ 149) by (apply Z.pow_pos_nonneg; lia).
  assert (TL : Ieee.trunc (F32.of_Z lo) = Some lo).
  { rewrite (trunc_scaled _ VL FL), SL, Z.quot_mul by lia; reflexivity. }
  assert (TH : Ieee.trunc (F32.of_Z hi) = Some hi).
  { rewrite (trunc_scaled _ VH FH), SH, Z.quot_mul by lia; reflexivity. }
  assert (LH : Ieee.ltb (F32.of_Z hi) (F32.of_Z lo) = false).
  { unfold Ieee.ltb, SFltb; rewrite (compare_scaled _ _ VH VL FH FL), SL, SH.
    destruct (Z.compare_spec (hi * 2 ^ 149) (lo * 2 ^ 149)); try reflexivity.
    nia. }
  unfold clamp, Ieee.gtb.
  destruct (Ieee.ltb v (F32.of_Z lo)) eqn:E1.
  - (* below: the result is lo *)
    change (SFltb (F32.of_Z hi) (F32.of_Z lo)) with
      (Ieee.ltb (F32.of_Z hi) (F32.of_Z lo)).
    rewrite LH; exists lo; split; [exact TL | lia].
  - destruct (SFltb (F32.of_Z hi) v) eqn:E2.
    + (* above: the result is hi *)
      exists hi; split; [exact TH | lia].
    + (* neither: v is a number between the two *)
      assert (Fv : Ieee.is_finite v = true).
      { destruct v as [s | s | | s m e]; try reflexivity; try discriminate.
        destruct s.
        - unfold Ieee.ltb, SFltb in E1.
          destruct (F32.of_Z lo) as [s' | s' | | s' m' e']; discriminate.
        - destruct (F32.of_Z hi) as [s' | s' | | s' m' e']; discriminate. }
      pose proof (not_ltb_scaled _ _ Hv VL Fv FL E1) as B1.
      pose proof (not_ltb_scaled _ _ VH Hv FH Fv E2) as B2.
      rewrite SL in B1; rewrite SH in B2.
      exists (Z.quot (F32.scaled v) (2 ^ 149)).
      split; [apply trunc_scaled; assumption |].
      split.
      * apply Z.quot_le_lower_bound; lia.
      * apply Z.quot_le_upper_bound; lia.
Qed.

(** The conversion to [uint8_t] of a number of binary32 is its integer part
    modulo 256: the numbers whose integer part does not fit 32 bits are
    multiples of 256. *)
Lemma to_uint8_trunc v t :
  F32.valid v = true -> Ieee.trunc v = Some t -> Ieee.to_uint8 v = t mod 256.
Proof.
  intros Hv Ht; unfold Ieee.to_uint8, Ieee.to_int; rewrite Ht.
  destruct ((- 2 ^ 31 <=? t) && (t <? 2 ^ 31)) eqn:Hr; [reflexivity |].
  destruct v as [s | s | | s m e]; try discriminate.
  - inversion Ht; subst t; discriminate.
  - apply valid_finite in Hv; destruct Hv as (He & Hm & _).
    change (2 ^ 24) with 16777216 in Hm.
    rewrite andb_false_iff, Z.leb_gt, Z.ltb_ge in Hr.
    change (2 ^ 31) with 2147483648 in *.
    cbn [Ieee.trunc] in Ht; injection Ht as Et.
    assert (Hbig : 8 <= e).
    { destruct (Z.le_gt_cases 8 e) as [Hle | Hgt]; [exact Hle | exfalso].
      assert (Hsmall : match e with
                       | Zneg p => Z.shiftr (Zpos m) (Zpos p)
                       | _ => Z.shiftl (Zpos m) e
                       end < 2147483648
                       /\ 0 <= match e with
                               | Zneg p => Z.shiftr (Zpos m) (Zpos p)
                               | _ => Z.shiftl (Zpos m) e
                               end).
      { destruct e as [| p | p].
        - rewrite Z.shiftl_0_r; lia.
        - rewrite Z.shiftl_mul_pow2 by lia.
          assert (2 ^ Zpos p <= 2 ^ 7) by (apply Z.pow_le_mono_r; lia).
          assert (0 < 2 ^ Zpos p) by (apply Z.pow_pos_nonneg; lia).
          change (2 ^ 7) with 128 in *; nia.
        - rewrite Z.shiftr_div_pow2 by lia.
          assert (0 < 2 ^ Zpos p) by (apply Z.pow_pos_nonneg; lia).
          split; [| apply Z.div_pos; lia].
          apply Z.le_lt_trans with (Zpos m); [| lia].
          apply Z.div_le_upper_bound; nia. }
      destruct s; lia. }
    assert (Hmul : exists k, t = k * 256).
    { destruct e as [| p | p]; try lia.
      rewrite Z.shiftl_mul_pow2 in Et by lia.
      replace (Zpos p) with ((Zpos p - 8) + 8) in Et by lia.
      rewrite Z.pow_add_r in Et by lia.
      change (2 ^ 8) with 256 in Et.
      destruct s; subst t.
      - exists (- (Zpos m * 2 ^ (Zpos p - 8))); ring.
      - exists (Zpos m * 2 ^ (Zpos p - 8)); ring. }
    destruct Hmul as (k & Hk); rewrite Hk, Z_mod_mult; reflexivity.
Qed.

(** *** Every emitted point is the point of its record *)

Lemma unpack_scan_emits hdr this pkt i bank j pc pc' :
  unpack_scan hdr this pkt i bank j pc = Done pc' -> pc' <> pc ->
  exists b0 b1 r cos_rot sin_rot ri,
    block_data pkt i (j * RAW_SCAN_SIZE) = Done b0
    /\ block_data pkt i (j * RAW_SCAN_SIZE + 1) = Done b1
    /\ block_rotation pkt i = Done r
    /\ index (cos_rot_table_ this) r = Done cos_rot
    /\ index (sin_rot_table_ this) r = Done sin_rot
    /\ block_data pkt i (j * RAW_SCAN_SIZE + 2) = Done ri
    /\ pc' = push_back pc
               (point_of hdr (laser_corrections this (laser_number bank j))
                  cos_rot sin_rot (two_bytes_uint b0 b1) ri).
Proof.
  intros H Hne; apply unpack_scan_Done in H.
  destruct H as (b0 & b1 & r & H0 & H1 & Hr & H).
  destruct (in_window (config_ this) r); [| contradiction].
  destruct H as (cr & sr & ri & Hc & Hs & Hi & H); cbv zeta in H.
  destruct (pointInRange _ _); [| contradiction].
  exists b0, b1, r, cr, sr, ri; repeat split; assumption.
Qed.

Lemma clamp_valid lo hi v :
  F32.valid lo = true -> F32.valid hi = true -> F32.valid v = true ->
  F32.valid (clamp lo hi v) = true.
Proof.
  intros Hlo Hhi Hv; unfold clamp.
  destruct (Ieee.ltb v lo); destruct (Ieee.gtb _ hi); assumption.
Qed.

(** With the bounds 300 and 400 the clamped intensity of a channel without
    focal correction is 300, whichever [abs] the build has, and the byte
    stored is 44. *)
Lemma intensity_300_400 hdr :
  Ieee.trunc (intensity_of hdr (Sample.plain_channel 300 400) 1000 77)
  = Some 300
  /\ Ieee.to_uint8 (intensity_of hdr (Sample.plain_channel 300 400) 1000 77)
     = 44.
Proof.
  unfold intensity_of, raw_plus_correction, intensity_correction_of, abs_of.
  destruct (abs_resolution hdr); vm_compute; split; reflexivity.
Qed.

(** C6, as stated, fails for a channel whose bounds are not within 0..255 or
    not in order: with min_intensity 300 and max_intensity 400 the point of a
    record of raw intensity 77 has the intensity 44, below min_intensity; with
    min_intensity 200 and max_intensity 100 it has the intensity 100, below
    min_intensity as well. *)
Lemma intensity_outside_bounds :
  let hdr := Sample.hdl64 abs_float in
  let pkt := Sample.uniform_packet 61183 500 1000 77 in
  (let l := Sample.plain_channel 300 400 in
   let this := Sample.decoder (Sample.window 35000 1000) l in
   let p := point_of hdr l (F32.of_Z 1) F32.zero 1000 77 in
   unpack_scan hdr this pkt 0 0 0 Sample.empty_cloud
   = Done (push_back Sample.empty_cloud p)
   /\ min_intensity l = F32.of_Z 300 /\ max_intensity l = F32.of_Z 400
   /\ intensity p = 44
   /\ Ieee.leb (min_intensity l) (F32.of_Z (intensity p)) = false)
  /\ (let l := Sample.plain_channel 200 100 in
      let this := Sample.decoder (Sample.window 35000 1000) l in
      let p := point_of hdr l (F32.of_Z 1) F32.zero 1000 77 in
      unpack_scan hdr this pkt 0 0 0 Sample.empty_cloud
      = Done (push_back Sample.empty_cloud p)
      /\ min_intensity l = F32.of_Z 200 /\ max_intensity l = F32.of_Z 100
      /\ intensity p = 100
      /\ Ieee.leb (min_intensity l) (F32.of_Z (intensity p)) = false).
Proof.
  cbv zeta; repeat split; vm_compute; reflexivity.
Qed.

(** C6 (amended): for a channel whose bounds are integers with
    0 <= min_intensity <= max_intensity <= 255, the intensity of every
    emitted point whose corrected intensity is a number of binary32 or an
    infinity (not NaN) lies within [min_intensity, max_intensity], whatever
    the raw intensity byte and the raw distance of the record. *)
Theorem emitted_intensity_within_bounds
    hdr this pkt i bank j pc pc' b0 b1 ri lo hi :
  block_data pkt i (j * RAW_SCAN_SIZE) = Done b0 ->
  block_data pkt i (j * RAW_SCAN_SIZE + 1) = Done b1 ->
  block_data pkt i (j * RAW_SCAN_SIZE + 2) = Done ri ->
  unpack_scan hdr this pkt i bank j pc = Done pc' ->
  pc' <> pc ->
  let corrections := laser_corrections this (laser_number bank j) in
  let unclamped :=
    raw_plus_correction hdr corrections (two_bytes_uint b0 b1) ri in
  min_intensity corrections = F32.of_Z lo ->
  max_intensity corrections = F32.of_Z hi ->
  0 <= lo <= hi -> hi <= 255 ->
  F32.valid unclamped = true ->
  Ieee.is_nan unclamped = false ->
  exists p, pc' = push_back pc p /\ lo <= intensity p <= hi.
Proof.
  intros H0 H1 Hi H Hne corrections unclamped Hmin Hmax Hlo Hhi Hval Hnan.
  destruct (unpack_scan_emits _ _ _ _ _ _ _ _ H Hne)
    as (b0' & b1' & r & cr & sr & ri' & H0' & H1' & _ & _ & _ & Hi' & Hp).
  assert (b0' = b0) by congruence; assert (b1' = b1) by congruence;
    assert (ri' = ri) by congruence; subst b0' b1' ri'.
  fold corrections in Hp.
  eexists; split; [exact Hp |].
  cbn [intensity point_of]; unfold intensity_of; fold unclamped.
  rewrite Hmin, Hmax.
  destruct (clamp_between_bytes lo hi unclamped Hlo Hhi Hval Hnan)
    as (t & Ht & Hb).
  rewrite (to_uint8_trunc _ t); [rewrite Z.mod_small; lia | | exact Ht].
  apply clamp_valid; [| | exact Hval]; apply byte_values_exact; lia.
Qed.

Lemma emitted_intensity_within_bounds_witness :
  let hdr := Sample.hdl64 abs_float in
  let l := Sample.plain_channel 0 255 in
  let this := Sample.decoder (Sample.window 35000 1000) l in
  let pkt := Sample.uniform_packet 61183 500 1000 255 in
  let pc := Sample.empty_cloud in
  let pc' := push_back pc (point_of hdr l (F32.of_Z 1) F32.zero 1000 255) in
  let unclamped := raw_plus_correction hdr l (two_bytes_uint 232 3) 255 in
  unpack_scan hdr this pkt 0 0 0 pc = Done pc'
  /\ pc' <> pc
  /\ F32.valid unclamped = true
  /\ Ieee.is_nan unclamped = false
  /\ exists p, pc' = push_back pc p /\ 0 <= intensity p <= 255.
Proof.
  cbv zeta.
  set (hdr := Sample.hdl64 abs_float).
  set (l := Sample.plain_channel 0 255).
  set (this := Sample.decoder (Sample.window 35000 1000) l).
  set (pkt := Sample.uniform_packet 61183 500 1000 255).
  set (pc' := push_back Sample.empty_cloud
                (point_of hdr l (F32.of_Z 1) F32.zero 1000 255)).
  assert (H0 : block_data pkt 0 (0 * RAW_SCAN_SIZE) = Done 232)
    by (vm_compute; reflexivity).
  assert (H1 : block_data pkt 0 (0 * RAW_SCAN_SIZE + 1) = Done 3)
    by (vm_compute; reflexivity).
  assert (Hi : block_data pkt 0 (0 * RAW_SCAN_SIZE + 2) = Done 255)
    by (vm_compute; reflexivity).
  assert (H : unpack_scan hdr this pkt 0 0 0 Sample.empty_cloud = Done pc')
    by (vm_compute; reflexivity).
  assert (Hne : pc' <> Sample.empty_cloud) by apply push_back_neq.
  assert (Hval : F32.valid
                   (raw_plus_correction hdr
                      (laser_corrections this (laser_number 0 0))
                      (two_bytes_uint 232 3) 255) = true)
    by (vm_compute; reflexivity).
  assert (Hnan : Ieee.is_nan
                   (raw_plus_correction hdr
                      (laser_corrections this (laser_number 0 0))
                      (two_bytes_uint 232 3) 255) = false)
    by (vm_compute; reflexivity).
  assert (Hlo : 0 <= 0 <= 255) by lia.
  assert (Hhi : 255 <= 255) by lia.
  split; [exact H | split; [exact Hne | split; [exact Hval | split;
    [exact Hnan |]]]].
  exact (emitted_intensity_within_bounds hdr this pkt 0 0 0 Sample.empty_cloud
           pc' 232 3 255 0 255 H0 H1 Hi H Hne eq_refl eq_refl Hlo Hhi
           Hval Hnan).
Defined.

(** C10: the intensity stored in an emitted point is the clamped intensity
    converted to [uint8_t]: for a clamped intensity that is a number of
    binary32, its integer part, toward zero, modulo 256.  For a channel whose
    bounds are integers of 0..255 this is the integer part itself; for the
    bounds 300 and 400 the clamped intensity 300 is stored as 44, outside the
    bounds. *)
Theorem stored_intensity_byte hdr this pkt i bank j pc pc' b0 b1 ri :
  block_data pkt i (j * RAW_SCAN_SIZE) = Done b0 ->
  block_data pkt i (j * RAW_SCAN_SIZE + 1) = Done b1 ->
  block_data pkt i (j * RAW_SCAN_SIZE + 2) = Done ri ->
  unpack_scan hdr this pkt i bank j pc = Done pc' ->
  pc' <> pc ->
  let corrections := laser_corrections this (laser_number bank j) in
  let raw := two_bytes_uint b0 b1 in
  let unclamped := raw_plus_correction hdr corrections raw ri in
  let v := intensity_of hdr corrections raw ri in
  (exists p,
     pc' = push_back pc p
     /\ intensity p = Ieee.to_uint8 v
     /\ (F32.valid v = true ->
         forall t, Ieee.trunc v = Some t -> intensity p = t mod 256)
     /\ (forall lo hi,
           min_intensity corrections = F32.of_Z lo ->
           max_intensity corrections = F32.of_Z hi ->
           0 <= lo <= hi -> hi <= 255 ->
           F32.valid unclamped = true ->
           Ieee.is_nan unclamped = false ->
           Ieee.trunc v = Some (intensity p)))
  /\ (let l := Sample.plain_channel 300 400 in
      let v' := intensity_of hdr l 1000 77 in
      let p' := point_of hdr l (F32.of_Z 1) F32.zero 1000 77 in
      min_intensity l = F32.of_Z 300 /\ max_intensity l = F32.of_Z 400
      /\ Ieee.trunc v' = Some 300
      /\ intensity p' = 300 mod 256
      /\ intensity p' < 300).
Proof.
  intros H0 H1 Hi H Hne corrections raw unclamped v; split.
  - destruct (unpack_scan_emits _ _ _ _ _ _ _ _ H Hne)
      as (b0' & b1' & r & cr & sr & ri' & H0' & H1' & _ & _ & _ & Hi' & Hp).
    assert (b0' = b0) by congruence; assert (b1' = b1) by congruence;
      assert (ri' = ri) by congruence; subst b0' b1' ri'.
    fold corrections raw in Hp.
    eexists; split; [exact Hp |].
    cbn [intensity point_of]; fold v.
    split; [reflexivity |].
    split.
    + intros Vv t Ht.
      apply to_uint8_trunc; assumption.
    + intros lo hi Hmin Hmax Hlo Hhi Hval Hnan.
      assert (Vv : F32.valid v = true).
      { unfold v, intensity_of; rewrite Hmin, Hmax.
        apply clamp_valid; [| | exact Hval]; apply byte_values_exact; lia. }
      destruct (clamp_between_bytes lo hi unclamped Hlo Hhi Hval Hnan)
        as (t & Ht & Hb).
      assert (Ev : v = clamp (F32.of_Z lo) (F32.of_Z hi) unclamped)
        by (unfold v, intensity_of; rewrite Hmin, Hmax; reflexivity).
      rewrite <- Ev in Ht.
      rewrite (to_uint8_trunc v t Vv Ht), Z.mod_small by lia; exact Ht.
  - cbv zeta; cbn [intensity point_of].
    destruct (intensity_300_400 hdr) as (Ht & Hb).
    rewrite Ht, Hb.
    repeat split; reflexivity.
Qed.

Lemma stored_intensity_byte_witness :
  let hdr := Sample.hdl64 abs_float in
  let l := Sample.plain_channel 0 255 in
  let this := Sample.decoder (Sample.window 35000 1000) l in
  let pkt := Sample.uniform_packet 61183 500 1000 77 in
  let pc := Sample.empty_cloud in
  let pc' := push_back pc (point_of hdr l (F32.of_Z 1) F32.zero 1000 77) in
  let v := intensity_of hdr l (two_bytes_uint 232 3) 77 in
  unpack_scan hdr this pkt 0 0 0 pc = Done pc'
  /\ pc' <> pc
  /\ F32.valid v = true
  /\ Ieee.trunc v = Some 77
  /\ exists p,
       pc' = push_back pc p
       /\ intensity p = Ieee.to_uint8 v
       /\ intensity p = 77 mod 256
       /\ Ieee.trunc v = Some (intensity p).
Proof.
  cbv zeta.
  set (hdr := Sample.hdl64 abs_float).
  set (l := Sample.plain_channel 0 255).
  set (this := Sample.decoder (Sample.window 35000 1000) l).
  set (pkt := Sample.uniform_packet 61183 500 1000 77).
  set (pc' := push_back Sample.empty_cloud
                (point_of hdr l (F32.of_Z 1) F32.zero 1000 77)).
  assert (H0 : block_data pkt 0 (0 * RAW_SCAN_SIZE) = Done 232)
    by (vm_compute; reflexivity).
  assert (H1 : block_data pkt 0 (0 * RAW_SCAN_SIZE + 1) = Done 3)
    by (vm_compute; reflexivity).
  assert (Hi : block_data pkt 0 (0 * RAW_SCAN_SIZE + 2) = Done 77)
    by (vm_compute; reflexivity).
  assert (H : unpack_scan hdr this pkt 0 0 0 Sample.empty_cloud = Done pc')
    by (vm_compute; reflexivity).
  assert (Hne : pc' <> Sample.empty_cloud) by apply push_back_neq.
  assert (Vv : F32.valid (intensity_of hdr l (two_bytes_uint 232 3) 77) = true)
    by (vm_compute; reflexivity).
  assert (Ht : Ieee.trunc (intensity_of hdr l (two_bytes_uint 232 3) 77)
               = Some 77) by (vm_compute; reflexivity).
  assert (Hval : F32.valid
                   (raw_plus_correction hdr l (two_bytes_uint 232 3) 77) = true)
    by (vm_compute; reflexivity).
  assert (Hnan : Ieee.is_nan
                   (raw_plus_correction hdr l (two_bytes_uint 232 3) 77) = false)
    by (vm_compute; reflexivity).
  assert (Hlo : 0 <= 0 <= 255) by lia.
  assert (Hhi : 255 <= 255) by lia.
  pose proof (stored_intensity_byte hdr this pkt 0 0 0 Sample.empty_cloud pc'
                232 3 77 H0 H1 Hi H Hne) as T.
  cbv zeta in T.
  destruct T as ((p & Hp & Hb & Hmod & Hsame) & _).
  split; [exact H | split; [exact Hne | split; [exact Vv | split;
    [exact Ht |]]]].
  exists p.
  split; [exact Hp | split; [exact Hb | split]].
  - exact (Hmod Vv 77 Ht).
  - exact (Hsame 0 255 eq_refl eq_refl Hlo Hhi Hval Hnan).
Defined.

(** * Further properties of the decoder *)

(** ** The window that [setParameters] stores *)

(** X1: The two angles that [setParameters] stores are never equal, so that on
    its windows the test of [unpack] is the test with [<=] between the
    angles; the ranges are stored as they are given, and the name of the
    calibration file is kept. *)
Theorem setParameters_window_invariant
    before min_r max_r view_center left right rot :
  let c := setParameters before min_r max_r view_center left right in
  min_angle c <> max_angle c
  /\ (in_window c rot = true <-> spec_window c rot)
  /\ min_range c = min_r /\ max_range c = max_r
  /\ calibrationFile c = calibrationFile before.
Proof.
  intros c.
  assert (Hne : min_angle c <> max_angle c).
  { unfold c, setParameters.
    destruct (Z.eqb_spec
                (hardware_angle (positive_modulo (F64.add view_center left)))
                (hardware_angle (positive_modulo (F64.sub view_center right))))
      as [E | E]; simpl; [lia | exact E]. }
  assert (Hr : min_range c = min_r /\ max_range c = max_r
               /\ calibrationFile c = calibrationFile before).
  { unfold c, setParameters; destruct (_ =? _); repeat split; reflexivity. }
  clearbody c.
  split; [exact Hne | split; [| exact Hr]].
  rewrite in_window_iff; unfold spec_window.
  split; (intros [H | H]; [left | right]); lia.
Qed.

(** ** Reads of a packet that holds all its blocks *)

Lemma two_bytes_uint_range b0 b1 :
  0 <= b0 < 256 -> 0 <= b1 < 256 -> 0 <= two_bytes_uint b0 b1 <= 65535.
Proof.
  unfold two_bytes_uint; lia.
Qed.

Section SafeReads.
Variable hdr : rawdata_h.
Variable this : RawData.
Variable pkt : packet.
Hypothesis Hready : tables_ready this.
Hypothesis Hlen : SIZE_BLOCK * BLOCKS_PER_PACKET hdr <= Z.of_nat (length pkt).
Hypothesis Hacc : forall i r,
  0 <= i < BLOCKS_PER_PACKET hdr ->
  block_rotation pkt i = Done r ->
  in_window (config_ this) r = true -> r < ROTATION_MAX_UNITS.

Lemma header_read i :
  0 <= i < BLOCKS_PER_PACKET hdr ->
  exists h, block_header pkt i = Done h /\ 0 <= h <= 65535.
Proof.
  intros Hi.
  unfold SIZE_BLOCK, BLOCK_DATA_SIZE, SCANS_PER_BLOCK, RAW_SCAN_SIZE in Hlen.
  destruct (byte_at_inside pkt (SIZE_BLOCK * i)) as (b0 & E0 & B0);
    [unfold SIZE_BLOCK, BLOCK_DATA_SIZE, SCANS_PER_BLOCK, RAW_SCAN_SIZE; lia |].
  destruct (byte_at_inside pkt (SIZE_BLOCK * i + 1)) as (b1 & E1 & B1);
    [unfold SIZE_BLOCK, BLOCK_DATA_SIZE, SCANS_PER_BLOCK, RAW_SCAN_SIZE; lia |].
  exists (two_bytes_uint b0 b1); split;
    [unfold block_header; rewrite E0, E1; reflexivity
    | apply two_bytes_uint_range; assumption].
Qed.

Lemma rotation_read i :
  0 <= i < BLOCKS_PER_PACKET hdr ->
  exists r, block_rotation pkt i = Done r /\ 0 <= r <= 65535.
Proof.
  intros Hi.
  unfold SIZE_BLOCK, BLOCK_DATA_SIZE, SCANS_PER_BLOCK, RAW_SCAN_SIZE in Hlen.
  destruct (byte_at_inside pkt (SIZE_BLOCK * i + 2)) as (b0 & E0 & B0);
    [unfold SIZE_BLOCK, BLOCK_DATA_SIZE, SCANS_PER_BLOCK, RAW_SCAN_SIZE; lia |].
  destruct (byte_at_inside pkt (SIZE_BLOCK * i + 3)) as (b1 & E1 & B1);
    [unfold SIZE_BLOCK, BLOCK_DATA_SIZE, SCANS_PER_BLOCK, RAW_SCAN_SIZE; lia |].
  exists (two_bytes_uint b0 b1); split;
    [unfold block_rotation; rewrite E0, E1; reflexivity
    | apply two_bytes_uint_range; assumption].
Qed.

Lemma data_read i k :
  0 <= i < BLOCKS_PER_PACKET hdr -> 0 <= k < BLOCK_DATA_SIZE ->
  exists b, block_data pkt i k = Done b /\ 0 <= b < 256.
Proof.
  intros Hi Hk; unfold block_data.
  unfold SIZE_BLOCK, BLOCK_DATA_SIZE, SCANS_PER_BLOCK, RAW_SCAN_SIZE in *.
  apply byte_at_inside; lia.
Qed.

Lemma scan_runs i bank j pc :
  0 <= i < BLOCKS_PER_PACKET hdr -> 0 <= j < SCANS_PER_BLOCK ->
  exists pc', unpack_scan hdr this pkt i bank j pc = Done pc'.
Proof.
  intros Hi Hj.
  assert (Hk : 0 <= j * RAW_SCAN_SIZE /\ j * RAW_SCAN_SIZE + 2 < BLOCK_DATA_SIZE)
    by (unfold BLOCK_DATA_SIZE, SCANS_PER_BLOCK, RAW_SCAN_SIZE in *; lia).
  destruct (data_read i (j * RAW_SCAN_SIZE) Hi) as (b0 & E0 & _); [lia |].
  destruct (data_read i (j * RAW_SCAN_SIZE + 1) Hi) as (b1 & E1 & _); [lia |].
  destruct (data_read i (j * RAW_SCAN_SIZE + 2) Hi) as (ri & Ei & _); [lia |].
  destruct (rotation_read i Hi) as (r & Er & Br).
  destruct (in_window (config_ this) r) eqn:Hw.
  - pose proof (Hacc i r Hi Er Hw) as Hr.
    destruct Hready as (Hc & Hs).
    destruct (index_length (cos_rot_table_ this) r) as (cr & Ec); [lia |].
    destruct (index_length (sin_rot_table_ this) r) as (sr & Es); [lia |].
    eexists.
    apply (unpack_scan_accepted hdr this pkt i bank j pc b0 b1 r cr sr ri);
      assumption.
  - exists pc.
    apply (unpack_scan_rejected hdr this pkt i bank j pc b0 b1 r); assumption.
Qed.

Lemma scans_run i bank n : forall j pc,
  0 <= i < BLOCKS_PER_PACKET hdr ->
  0 <= j -> j + Z.of_nat n <= SCANS_PER_BLOCK ->
  exists pc', unpack_scans hdr this pkt i bank n j pc = Done pc'.
Proof.
  induction n as [| n IH]; intros j pc Hi Hj Hn; cbn [unpack_scans].
  - exists pc; reflexivity.
  - destruct (scan_runs i bank j pc Hi) as (pc1 & E1); [lia |].
    rewrite E1; cbn [bind].
    apply IH; [exact Hi | lia | lia].
Qed.

Lemma blocks_run n : forall i pc,
  0 <= i -> i + Z.of_nat n <= BLOCKS_PER_PACKET hdr ->
  exists pc', unpack_blocks hdr this pkt n i pc = Done pc'.
Proof.
  induction n as [| n IH]; intros i pc Hi Hn; cbn [unpack_blocks].
  - exists pc; reflexivity.
  - assert (Hi' : 0 <= i < BLOCKS_PER_PACKET hdr) by lia.
    destruct (header_read i Hi') as (h & Eh & _).
    destruct (scans_run i (bank_origin hdr h) (Z.to_nat SCANS_PER_BLOCK) 0 pc Hi')
      as (pc1 & E1); [lia | unfold SCANS_PER_BLOCK; simpl; lia |].
    unfold unpack_block; rewrite Eh; cbn [bind]; rewrite E1; cbn [bind].
    apply IH; lia.
Qed.

Lemma unpack_runs pc : exists pc', unpack hdr this pkt pc = Done pc'.
Proof.
  unfold unpack.
  destruct (Z.le_gt_cases 0 (BLOCKS_PER_PACKET hdr)) as [Hn | Hn].
  - apply blocks_run; [lia | rewrite Z2Nat.id by assumption; lia].
  - destruct (BLOCKS_PER_PACKET hdr); try lia.
    exists pc; reflexivity.
Qed.

End SafeReads.

(** X2: With a window that does not wrap and ends below 36000, [unpack] reads
    inside the rotation tables whatever the packet holds, rotations of 36000
    and more included: such rotations are rejected before the tables are
    read. *)
Theorem unpack_safe_in_plain_window hdr this pkt pc :
  tables_ready this ->
  SIZE_BLOCK * BLOCKS_PER_PACKET hdr <= Z.of_nat (length pkt) ->
  min_angle (config_ this) <= max_angle (config_ this) ->
  max_angle (config_ this) < ROTATION_MAX_UNITS ->
  exists pc', unpack hdr this pkt pc = Done pc'.
Proof.
  intros Hready Hlen Hmin Hmax.
  apply unpack_runs; try assumption.
  intros i r _ _ Hw.
  apply in_window_iff in Hw; lia.
Qed.

Lemma unpack_safe_in_plain_window_witness :
  let hdr := Sample.hdl64 abs_float in
  let this := Sample.decoder (Sample.window 1000 35000)
                (Sample.plain_channel 0 255) in
  let pkt := Sample.uniform_packet 61183 40000 1000 77 in
  tables_ready this
  /\ block_rotation pkt 0 = Done 40000
  /\ exists pc', unpack hdr this pkt Sample.empty_cloud = Done pc'.
Proof.
  cbv zeta.
  assert (Hready : tables_ready
                     (Sample.decoder (Sample.window 1000 35000)
                        (Sample.plain_channel 0 255)))
    by apply decoder_tables.
  assert (Hlen : SIZE_BLOCK * BLOCKS_PER_PACKET (Sample.hdl64 abs_float)
                 <= Z.of_nat
                      (length (Sample.uniform_packet 61183 40000 1000 77)))
    by (vm_compute; discriminate).
  assert (Hmin : min_angle (config_ (Sample.decoder (Sample.window 1000 35000)
                                       (Sample.plain_channel 0 255)))
                 <= max_angle (config_ (Sample.decoder
                                          (Sample.window 1000 35000)
                                          (Sample.plain_channel 0 255))))
    by (vm_compute; discriminate).
  assert (Hmax : max_angle (config_ (Sample.decoder (Sample.window 1000 35000)
                                       (Sample.plain_channel 0 255)))
                 < ROTATION_MAX_UNITS)
    by (vm_compute; reflexivity).
  split; [exact Hready | split; [vm_compute; reflexivity |]].
  exact (unpack_safe_in_plain_window (Sample.hdl64 abs_float) _ _
           Sample.empty_cloud Hready Hlen Hmin Hmax).
Defined.

(** ** [setup] *)

(** A configuration that [setParameters] has stored is still one after
    [setup], which assigns [calibrationFile] only. *)
Lemma setup_keeps_window env heading_cos heading_sin this
    before min_r max_r view_center left right :
  config_ this = setParameters before min_r max_r view_center left right ->
  config_ (snd (Setup.setup env heading_cos heading_sin this))
  = setParameters
      (Setup.with_calibrationFile before (Setup.calibration_file_name env))
      min_r max_r view_center left right.
Proof.
  intros H; unfold Setup.setup.
  destruct (Setup.initialized _); cbn [negb snd setup_tables config_];
    rewrite H; unfold setParameters, Setup.with_calibrationFile;
    destruct (_ =? _); reflexivity.
Qed.

(** X3: [setup] stores in [config_.calibrationFile] the value of the parameter
    "calibration" if the node has it, and the file /params/64e_utexas.yaml
    of the package otherwise, and reads the calibration from the stored
    name.  It returns -1 exactly when the calibration that was read is not
    initialized, and then leaves the two rotation tables as they were; it
    returns 0 otherwise, with both tables filled: [ROTATION_MAX_UNITS]
    entries, entry r holding the cosine and the sine of heading r.  The
    ranges and the angles of the configuration are kept. *)
Theorem setup_result env heading_cos heading_sin this :
  let res := Setup.setup env heading_cos heading_sin this in
  let file := calibrationFile (config_ (snd res)) in
  let calibration_ := Setup.read env file (laser_corrections this) in
  (forall name, Setup.calibration_param env = Some name -> file = name)
  /\ (Setup.calibration_param env = None ->
      file = String.append (Setup.package_path env) Setup.test_calibration)
  /\ (fst res = -1 \/ fst res = 0)
  /\ (fst res = -1 <-> Setup.initialized calibration_ = false)
  /\ (fst res = -1 ->
      cos_rot_table_ (snd res) = cos_rot_table_ this
      /\ sin_rot_table_ (snd res) = sin_rot_table_ this)
  /\ (fst res = 0 ->
      tables_ready (snd res)
      /\ forall r, 0 <= r < ROTATION_MAX_UNITS ->
           index (cos_rot_table_ (snd res)) r = Done (heading_cos r)
           /\ index (sin_rot_table_ (snd res)) r = Done (heading_sin r))
  /\ (min_range (config_ (snd res)) = min_range (config_ this)
      /\ max_range (config_ (snd res)) = max_range (config_ this)
      /\ min_angle (config_ (snd res)) = min_angle (config_ this)
      /\ max_angle (config_ (snd res)) = max_angle (config_ this)
      /\ tmp_min_angle (config_ (snd res)) = tmp_min_angle (config_ this)
      /\ tmp_max_angle (config_ (snd res)) = tmp_max_angle (config_ this))
  /\ laser_corrections (snd res) = Setup.read_corrections calibration_.
Proof.
  intros res file calibration_.
  assert (Ef : file = Setup.calibration_file_name env).
  { unfold file, res, Setup.setup.
    destruct (Setup.initialized _); reflexivity. }
  split; [intros name Hn; rewrite Ef; unfold Setup.calibration_file_name;
          rewrite Hn; reflexivity |].
  split; [intros Hn; rewrite Ef; unfold Setup.calibration_file_name;
          rewrite Hn; reflexivity |].
  unfold calibration_; rewrite Ef; clear Ef calibration_ file.
  unfold res, Setup.setup; cbn [Setup.with_calibrationFile calibrationFile].
  destruct (Setup.initialized _); cbn [negb fst snd].
  - split; [right; reflexivity |].
    split; [split; discriminate |].
    split; [discriminate |].
    split; [| split; [repeat split |]; reflexivity].
    intros _; split; [apply setup_tables_ready |].
    intros r Hr; apply setup_tables_index; exact Hr.
  - split; [left; reflexivity |].
    split; [split; reflexivity |].
    split; [intros _; split; reflexivity |].
    split; [discriminate | split; [repeat split |]; reflexivity].
Qed.

Lemma setup_result_witness :
  (* no parameter: the file of the package, which cannot be read *)
  (Setup.calibration_param (SampleNode.env false) = None
   /\ calibrationFile
        (config_
           (snd (Setup.setup (SampleNode.env false) (fun _ => F32.of_Z 1)
                   (fun _ => F32.zero)
                   (SampleNode.fresh (Sample.window 0 36000)))))
      = SampleNode.package_file
   /\ fst (Setup.setup (SampleNode.env false) (fun _ => F32.of_Z 1)
             (fun _ => F32.zero) (SampleNode.fresh (Sample.window 0 36000)))
      = -1
   /\ cos_rot_table_
        (snd (Setup.setup (SampleNode.env false) (fun _ => F32.of_Z 1)
                (fun _ => F32.zero) (SampleNode.fresh (Sample.window 0 36000))))
      = [])
  (* the parameter is set, to a calibration that is read *)
  /\ (Setup.calibration_param (SampleNode.launched true)
      = Some SampleNode.launch_file
      /\ calibrationFile
           (config_
              (snd (Setup.setup (SampleNode.launched true)
                      (fun _ => F32.of_Z 1) (fun _ => F32.zero)
                      (SampleNode.fresh (Sample.window 0 36000)))))
         = SampleNode.launch_file
      /\ fst (Setup.setup (SampleNode.launched true) (fun _ => F32.of_Z 1)
                (fun _ => F32.zero) (SampleNode.fresh (Sample.window 0 36000)))
         = 0
      /\ index (cos_rot_table_
                  (snd (Setup.setup (SampleNode.launched true)
                          (fun _ => F32.of_Z 1) (fun _ => F32.zero)
                          (SampleNode.fresh (Sample.window 0 36000))))) 35999
         = Done (F32.of_Z 1)).
Proof.
  split.
  - pose proof (setup_result (SampleNode.env false) (fun _ => F32.of_Z 1)
                  (fun _ => F32.zero) (SampleNode.fresh (Sample.window 0 36000)))
      as T.
    cbv zeta in T.
    destruct T as (_ & Hfile & _ & Hfail & Hkeep & _).
    assert (Hn : Setup.calibration_param (SampleNode.env false) = None)
      by reflexivity.
    assert (E : fst (Setup.setup (SampleNode.env false) (fun _ => F32.of_Z 1)
                       (fun _ => F32.zero)
                       (SampleNode.fresh (Sample.window 0 36000))) = -1)
      by (apply Hfail; reflexivity).
    split; [exact Hn | split; [exact (Hfile Hn) | split; [exact E |]]].
    exact (proj1 (Hkeep E)).
  - pose proof (setup_result (SampleNode.launched true) (fun _ => F32.of_Z 1)
                  (fun _ => F32.zero) (SampleNode.fresh (Sample.window 0 36000)))
      as T.
    cbv zeta in T.
    destruct T as (Hfile & _ & _ & _ & _ & Hok & _).
    assert (Hn : Setup.calibration_param (SampleNode.launched true)
                 = Some SampleNode.launch_file)
      by reflexivity.
    assert (E : fst (Setup.setup (SampleNode.launched true)
                       (fun _ => F32.of_Z 1) (fun _ => F32.zero)
                       (SampleNode.fresh (Sample.window 0 36000))) = 0)
      by reflexivity.
    split; [exact Hn | split; [exact (Hfile _ Hn) | split; [exact E |]]].
    destruct (Hok E) as (_ & Hidx).
    apply (Hidx 35999); unfold ROTATION_MAX_UNITS; lia.
Defined.

(** X4: After a [setup] that returned 0, [unpack] decodes every well-formed
    packet without a read outside an array, whatever the tables held
    before. *)
Theorem setup_then_unpack hdr env heading_cos heading_sin this pkt pc :
  fst (Setup.setup env heading_cos heading_sin this) = 0 ->
  well_formed hdr pkt ->
  exists pc',
    unpack hdr (snd (Setup.setup env heading_cos heading_sin this)) pkt pc
    = Done pc'.
Proof.
  intros Hok (Hlen & Hrot).
  apply unpack_runs; [| exact Hlen | intros i r Hi Er _; exact (Hrot i r Hi Er)].
  revert Hok; unfold Setup.setup.
  destruct (Setup.initialized _); cbn [negb fst snd];
    [intros _; apply setup_tables_ready | discriminate].
Qed.

Lemma setup_then_unpack_witness :
  let hdr := Sample.hdl64 abs_float in
  let this := SampleNode.fresh (Sample.window 0 36000) in
  let pkt := Sample.uniform_packet 61183 500 1000 77 in
  fst (Setup.setup (SampleNode.env true) (fun _ => F32.of_Z 1)
         (fun _ => F32.zero) this) = 0
  /\ well_formed hdr pkt
  /\ exists pc',
       unpack hdr
         (snd (Setup.setup (SampleNode.env true) (fun _ => F32.of_Z 1)
                 (fun _ => F32.zero) this))
         pkt Sample.empty_cloud
       = Done pc'.
Proof.
  cbv zeta.
  assert (Hok : fst (Setup.setup (SampleNode.env true) (fun _ => F32.of_Z 1)
                       (fun _ => F32.zero)
                       (SampleNode.fresh (Sample.window 0 36000))) = 0)
    by reflexivity.
  assert (Hpkt : well_formed (Sample.hdl64 abs_float)
                   (Sample.uniform_packet 61183 500 1000 77))
    by sample_well_formed.
  split; [exact Hok | split; [exact Hpkt |]].
  exact (setup_then_unpack (Sample.hdl64 abs_float) (SampleNode.env true)
           (fun _ => F32.of_Z 1) (fun _ => F32.zero)
           (SampleNode.fresh (Sample.window 0 36000))
           (Sample.uniform_packet 61183 500 1000 77) Sample.empty_cloud
           Hok Hpkt).
Defined.

(** ** What [unpack] appends *)

Lemma bank_origin_cases hdr header :
  bank_origin hdr header = 0 \/ bank_origin hdr header = 32.
Proof.
  unfold bank_origin; destruct (header =? LOWER_BANK hdr); auto.
Qed.

Section Appended.
Variable hdr : rawdata_h.
Variable this : RawData.
Variable pkt : packet.

Lemma point_of_laser_point bank j cos_rot sin_rot raw ri :
  0 <= j < SCANS_PER_BLOCK -> bank = 0 \/ bank = 32 ->
  laser_point this
    (point_of hdr (laser_corrections this (laser_number bank j))
       cos_rot sin_rot raw ri).
Proof.
  intros Hj Hb; unfold laser_point, SCANS_PER_BLOCK in *; split.
  - exists (laser_number bank j); split; [| reflexivity].
    unfold laser_number; rewrite Z.mod_small; lia.
  - cbn [intensity point_of]; unfold Ieee.to_uint8.
    pose proof (Z.mod_pos_bound
                  (Ieee.to_int (intensity_of hdr
                                  (laser_corrections this (laser_number bank j))
                                  raw ri)) 256); lia.
Qed.

(** What a record appends does not depend on the cloud. *)
Lemma scan_appends i bank j pc pc' :
  unpack_scan hdr this pkt i bank j pc = Done pc' ->
  0 <= j < SCANS_PER_BLOCK -> bank = 0 \/ bank = 32 ->
  exists new,
    pc' = append_points pc new
    /\ (length new <= 1)%nat
    /\ Forall (laser_point this) new
    /\ forall pc2,
         unpack_scan hdr this pkt i bank j pc2 = Done (append_points pc2 new).
Proof.
  intros H Hj Hb; apply unpack_scan_Done in H.
  destruct H as (b0 & b1 & r & H0 & H1 & Hr & H).
  destruct (in_window (config_ this) r) eqn:Hw.
  - destruct H as (cr & sr & ri & Hc & Hs & Hi & H); cbv zeta in H.
    destruct (pointInRange (config_ this)
                (distance_of hdr (laser_corrections this (laser_number bank j))
                   (two_bytes_uint b0 b1))) eqn:Hp.
    + eexists; split; [rewrite H; apply push_back_append |].
      split; [simpl; lia |].
      split; [constructor; [apply point_of_laser_point; assumption | constructor] |].
      intros pc2.
      rewrite (unpack_scan_accepted hdr this pkt i bank j pc2 b0 b1 r cr sr ri
                 H0 H1 Hr Hw Hc Hs Hi), Hp.
      reflexivity.
    + exists []; split; [rewrite append_points_nil; exact H |].
      split; [simpl; lia | split; [constructor |]].
      intros pc2.
      rewrite (unpack_scan_accepted hdr this pkt i bank j pc2 b0 b1 r cr sr ri
                 H0 H1 Hr Hw Hc Hs Hi), Hp, append_points_nil.
      reflexivity.
  - exists []; split; [rewrite append_points_nil; exact H |].
    split; [simpl; lia | split; [constructor |]].
    intros pc2; rewrite append_points_nil.
    apply (unpack_scan_rejected hdr this pkt i bank j pc2 b0 b1 r); assumption.
Qed.

Lemma scans_append i bank n : forall j pc pc',
  unpack_scans hdr this pkt i bank n j pc = Done pc' ->
  0 <= j -> j + Z.of_nat n <= SCANS_PER_BLOCK -> bank = 0 \/ bank = 32 ->
  exists new,
    pc' = append_points pc new
    /\ (length new <= n)%nat
    /\ Forall (laser_point this) new
    /\ forall pc2,
         unpack_scans hdr this pkt i bank n j pc2
         = Done (append_points pc2 new).
Proof.
  induction n as [| n IH]; intros j pc pc' H Hj Hn Hb; cbn [unpack_scans] in *.
  - exists []; split; [rewrite append_points_nil; congruence |].
    split; [simpl; lia | split; [constructor |]].
    intros pc2; rewrite append_points_nil; reflexivity.
  - apply bind_Done in H; destruct H as (pc1 & H1 & H2).
    apply scan_appends in H1; [| lia | exact Hb].
    destruct H1 as (n1 & E1 & L1 & F1 & I1).
    apply IH in H2; [| lia | lia | exact Hb].
    destruct H2 as (n2 & E2 & L2 & F2 & I2).
    exists (n1 ++ n2).
    split; [rewrite E2, E1; apply append_points_app |].
    split; [rewrite length_app; lia |].
    split; [apply Forall_app; split; assumption |].
    intros pc2; rewrite I1; cbn [bind]; rewrite I2.
    rewrite append_points_app; reflexivity.
Qed.

Lemma blocks_append n : forall i pc pc',
  unpack_blocks hdr this pkt n i pc = Done pc' ->
  exists new,
    pc' = append_points pc new
    /\ (length new <= 32 * n)%nat
    /\ Forall (laser_point this) new
    /\ forall pc2,
         unpack_blocks hdr this pkt n i pc2 = Done (append_points pc2 new).
Proof.
  induction n as [| n IH]; intros i pc pc' H; cbn [unpack_blocks] in *.
  - exists []; split; [rewrite append_points_nil; congruence |].
    split; [simpl; lia | split; [constructor |]].
    intros pc2; rewrite append_points_nil; reflexivity.
  - apply bind_Done in H; destruct H as (pc1 & H1 & H2).
    unfold unpack_block in H1.
    apply bind_Done in H1; destruct H1 as (h & Eh & H1).
    apply scans_append in H1;
      [| lia | unfold SCANS_PER_BLOCK; simpl; lia | apply bank_origin_cases].
    destruct H1 as (n1 & E1 & L1 & F1 & I1).
    apply IH in H2; destruct H2 as (n2 & E2 & L2 & F2 & I2).
    exists (n1 ++ n2).
    split; [rewrite E2, E1; apply append_points_app |].
    split; [rewrite length_app; unfold SCANS_PER_BLOCK in L1; simpl in L1; lia |].
    split; [apply Forall_app; split; assumption |].
    intros pc2; unfold unpack_block; rewrite Eh; cbn [bind].
    rewrite I1; cbn [bind]; rewrite I2.
    rewrite append_points_app; reflexivity.
Qed.

End Appended.

(** X5: [unpack] never reads the cloud: the points it appends for a packet are
    the same whatever the cloud held before, and it returns for every cloud
    if it returns for one. *)
Theorem unpack_ignores_cloud hdr this pkt pc pc' :
  unpack hdr this pkt pc = Done pc' ->
  exists new,
    pc' = append_points pc new
    /\ forall pc2, unpack hdr this pkt pc2 = Done (append_points pc2 new).
Proof.
  unfold unpack; intros H.
  apply blocks_append in H; destruct H as (new & E & _ & _ & I).
  exists new; split; [exact E | exact I].
Qed.

(** X6: [unpack] appends at most 32 points for each block it reads.  The
    width is a 32-bit counter: as long as the width before, taken with 32
    points for each block, stays below 2^32, the width grows by the number
    of points appended, so that it does not decrease and grows by at most 32
    for each block; and the width stays equal to the number of points modulo
    2^32 when it was so before. *)
Theorem unpack_count hdr this pkt pc pc' :
  unpack hdr this pkt pc = Done pc' ->
  exists new,
    points pc' = points pc ++ new
    /\ Z.of_nat (length new) <= 32 * Z.max 0 (BLOCKS_PER_PACKET hdr)
    /\ (0 <= width pc ->
        width pc + 32 * Z.max 0 (BLOCKS_PER_PACKET hdr) < 2 ^ 32 ->
        width pc' = width pc + Z.of_nat (length new)
        /\ width pc <= width pc'
                    <= width pc + 32 * Z.max 0 (BLOCKS_PER_PACKET hdr))
    /\ (width pc = Z.of_nat (length (points pc)) mod 2 ^ 32 ->
        width pc' = Z.of_nat (length (points pc')) mod 2 ^ 32).
Proof.
  unfold unpack; intros H.
  apply blocks_append in H; destruct H as (new & E & L & _ & _).
  assert (Hn : Z.of_nat (length new) <= 32 * Z.max 0 (BLOCKS_PER_PACKET hdr)).
  { rewrite <- Z2Nat.id with (n := Z.max 0 (BLOCKS_PER_PACKET hdr)) by lia.
    replace (Z.to_nat (Z.max 0 (BLOCKS_PER_PACKET hdr)))
      with (Z.to_nat (BLOCKS_PER_PACKET hdr)) by lia.
    lia. }
  subst pc'; exists new.
  split; [apply append_points_points | split; [exact Hn |]].
  split.
  - intros H0 Hsum.
    rewrite append_points_width_exact by lia; lia.
  - intros Hw.
    assert (Hb : 0 <= width pc < 2 ^ 32)
      by (rewrite Hw; apply Z.mod_pos_bound; lia).
    rewrite append_points_width by exact Hb.
    rewrite append_points_points, length_app, Nat2Z.inj_add, Hw.
    apply Zplus_mod_idemp_l.
Qed.

(** X7: Every point that [unpack] appends carries the ring of one of the lasers
    0..63 and an intensity of 0..255: record j of a block is decoded with
    laser j, or with laser j + 32 when the header is [LOWER_BANK], and the
    [uint8_t] laser number never wraps. *)
Theorem unpack_rings hdr this pkt pc pc' :
  unpack hdr this pkt pc = Done pc' ->
  (exists new,
     points pc' = points pc ++ new /\ Forall (laser_point this) new)
  /\ forall header j, 0 <= j < SCANS_PER_BLOCK ->
       laser_number (bank_origin hdr header) j
       = (if header =? LOWER_BANK hdr then j + 32 else j).
Proof.
  unfold unpack; intros H.
  apply blocks_append in H; destruct H as (new & E & _ & F & _).
  split.
  - exists new; subst pc'; split; [apply append_points_points | exact F].
  - intros header j Hj; unfold laser_number, bank_origin, SCANS_PER_BLOCK in *.
    destruct (header =? LOWER_BANK hdr); rewrite Z.mod_small; lia.
Qed.

Lemma sample_unpack_runs pc :
  exists pc',
    unpack (Sample.hdl64 abs_float)
      (Sample.decoder (Sample.window 35000 1000) (Sample.plain_channel 0 255))
      (Sample.uniform_packet 61183 500 1000 77) pc
    = Done pc'.
Proof.
  assert (Hpkt : well_formed (Sample.hdl64 abs_float)
                   (Sample.uniform_packet 61183 500 1000 77))
    by sample_well_formed.
  destruct Hpkt as (Hlen & Hrot).
  apply unpack_runs;
    [apply decoder_tables | exact Hlen
    | intros i r Hi Er _; exact (Hrot i r Hi Er)].
Qed.

Lemma unpack_ignores_cloud_witness :
  let hdr := Sample.hdl64 abs_float in
  let this := Sample.decoder (Sample.window 35000 1000)
                (Sample.plain_channel 0 255) in
  let pkt := Sample.uniform_packet 61183 500 1000 77 in
  let other := {| points := []; width := 7 |} in
  exists pc' new,
    unpack hdr this pkt Sample.empty_cloud = Done pc'
    /\ pc' = append_points Sample.empty_cloud new
    /\ unpack hdr this pkt other = Done (append_points other new).
Proof.
  cbv zeta.
  destruct (sample_unpack_runs Sample.empty_cloud) as (pc' & H).
  destruct (unpack_ignores_cloud _ _ _ _ _ H) as (new & E & I).
  exists pc', new.
  split; [exact H | split; [exact E | apply I]].
Defined.

Lemma unpack_count_witness :
  let hdr := Sample.hdl64 abs_float in
  let this := Sample.decoder (Sample.window 35000 1000)
                (Sample.plain_channel 0 255) in
  let pkt := Sample.uniform_packet 61183 500 1000 77 in
  exists pc' new,
    unpack hdr this pkt Sample.empty_cloud = Done pc'
    /\ points pc' = points Sample.empty_cloud ++ new
    /\ Z.of_nat (length new) <= 384
    /\ 0 <= width Sample.empty_cloud
    /\ width Sample.empty_cloud + 32 * Z.max 0 (BLOCKS_PER_PACKET hdr) < 2 ^ 32
    /\ width pc' = Z.of_nat (length new)
    /\ width pc' <= 384
    /\ width pc' = Z.of_nat (length (points pc')) mod 2 ^ 32.
Proof.
  cbv zeta.
  destruct (sample_unpack_runs Sample.empty_cloud) as (pc' & H).
  destruct (unpack_count _ _ _ _ _ H) as (new & Hp & Hn & Hw & Hinv).
  assert (H0 : 0 <= width Sample.empty_cloud) by (simpl; lia).
  assert (Hsum : width Sample.empty_cloud
                 + 32 * Z.max 0 (BLOCKS_PER_PACKET (Sample.hdl64 abs_float))
                 < 2 ^ 32) by (simpl; lia).
  destruct (Hw H0 Hsum) as (He & _ & Hle).
  exists pc', new.
  split; [exact H | split; [exact Hp | split; [exact Hn |]]].
  split; [exact H0 | split; [exact Hsum | split; [exact He |]]].
  split; [exact Hle | apply Hinv; reflexivity].
Defined.

Lemma unpack_rings_witness :
  let hdr := Sample.hdl64 abs_float in
  let this := Sample.decoder (Sample.window 35000 1000)
                (Sample.plain_channel 0 255) in
  let pkt := Sample.uniform_packet 61183 500 1000 77 in
  exists pc' new,
    unpack hdr this pkt Sample.empty_cloud = Done pc'
    /\ points pc' = points Sample.empty_cloud ++ new
    /\ Forall (laser_point this) new.
Proof.
  cbv zeta.
  destruct (sample_unpack_runs Sample.empty_cloud) as (pc' & H).
  destruct (unpack_rings _ _ _ _ _ H) as ((new & E & F) & _).
  exists pc', new.
  split; [exact H | split; [exact E | exact F]].
Defined.

(** ** Blocks outside the window *)

Section Rejected.
Variable hdr : rawdata_h.
Variable this : RawData.
Variable pkt : packet.
Hypothesis Hlen : SIZE_BLOCK * BLOCKS_PER_PACKET hdr <= Z.of_nat (length pkt).

Lemma scans_rejected i bank r n : forall j pc,
  0 <= i < BLOCKS_PER_PACKET hdr ->
  block_rotation pkt i = Done r ->
  in_window (config_ this) r = false ->
  0 <= j -> j + Z.of_nat n <= SCANS_PER_BLOCK ->
  unpack_scans hdr this pkt i bank n j pc = Done pc.
Proof.
  induction n as [| n IH]; intros j pc Hi Er Hw Hj Hn; cbn [unpack_scans].
  - reflexivity.
  - assert (Hk : 0 <= j * RAW_SCAN_SIZE
                 /\ j * RAW_SCAN_SIZE + 1 < BLOCK_DATA_SIZE)
      by (unfold BLOCK_DATA_SIZE, SCANS_PER_BLOCK, RAW_SCAN_SIZE in *; lia).
    destruct (data_read hdr pkt Hlen i (j * RAW_SCAN_SIZE) Hi) as (b0 & E0 & _);
      [lia |].
    destruct (data_read hdr pkt Hlen i (j * RAW_SCAN_SIZE + 1) Hi)
      as (b1 & E1 & _); [lia |].
    rewrite (unpack_scan_rejected hdr this pkt i bank j pc b0 b1 r E0 E1 Er Hw).
    cbn [bind]; apply IH; try assumption; lia.
Qed.

Lemma block_rejected i r pc :
  0 <= i < BLOCKS_PER_PACKET hdr ->
  block_rotation pkt i = Done r ->
  in_window (config_ this) r = false ->
  unpack_block hdr this pkt i pc = Done pc.
Proof.
  intros Hi Er Hw; unfold unpack_block.
  destruct (header_read hdr pkt Hlen i Hi) as (h & Eh & _).
  rewrite Eh; cbn [bind].
  apply (scans_rejected i (bank_origin hdr h) r); try assumption; [lia |].
  unfold SCANS_PER_BLOCK; simpl; lia.
Qed.

Lemma blocks_rejected n : forall i pc,
  (forall k r, 0 <= k < BLOCKS_PER_PACKET hdr ->
     block_rotation pkt k = Done r -> in_window (config_ this) r = false) ->
  0 <= i -> i + Z.of_nat n <= BLOCKS_PER_PACKET hdr ->
  unpack_blocks hdr this pkt n i pc = Done pc.
Proof.
  induction n as [| n IH]; intros i pc Hall Hi Hn; cbn [unpack_blocks].
  - reflexivity.
  - assert (Hi' : 0 <= i < BLOCKS_PER_PACKET hdr) by lia.
    destruct (rotation_read hdr pkt Hlen i Hi') as (r & Er & _).
    rewrite (block_rejected i r pc Hi' Er (Hall i r Hi' Er)); cbn [bind].
    apply IH; [exact Hall | lia | lia].
Qed.

End Rejected.

(** X8: The window test is one test for a block: a block whose rotation fails
    it appends no point, whatever its 32 records hold and without the
    rotation tables being read; a packet of such blocks leaves the cloud as it
    was, with tables of any size. *)
Theorem unpack_rejected_blocks hdr this pkt pc :
  SIZE_BLOCK * BLOCKS_PER_PACKET hdr <= Z.of_nat (length pkt) ->
  (forall i r, 0 <= i < BLOCKS_PER_PACKET hdr ->
     block_rotation pkt i = Done r ->
     in_window (config_ this) r = false ->
     unpack_block hdr this pkt i pc = Done pc)
  /\ ((forall i r, 0 <= i < BLOCKS_PER_PACKET hdr ->
         block_rotation pkt i = Done r ->
         in_window (config_ this) r = false) ->
      unpack hdr this pkt pc = Done pc).
Proof.
  intros Hlen; split.
  - intros i r Hi Er Hw; apply (block_rejected hdr this pkt Hlen i r); assumption.
  - intros Hall; unfold unpack.
    destruct (Z.le_gt_cases 0 (BLOCKS_PER_PACKET hdr)) as [Hn | Hn].
    + apply blocks_rejected; try assumption; [lia |].
      rewrite Z2Nat.id by assumption; lia.
    + destruct (BLOCKS_PER_PACKET hdr); try lia; reflexivity.
Qed.

Lemma unpack_rejected_blocks_witness :
  let hdr := Sample.hdl64 abs_float in
  let this := SampleNode.fresh (Sample.window 35000 1000) in
  let pkt := Sample.uniform_packet 61183 20000 1000 77 in
  SIZE_BLOCK * BLOCKS_PER_PACKET hdr <= Z.of_nat (length pkt)
  /\ block_rotation pkt 3 = Done 20000
  /\ in_window (config_ this) 20000 = false
  /\ unpack_block hdr this pkt 3 Sample.empty_cloud = Done Sample.empty_cloud.
Proof.
  cbv zeta.
  assert (Hlen : SIZE_BLOCK * BLOCKS_PER_PACKET (Sample.hdl64 abs_float)
                 <= Z.of_nat
                      (length (Sample.uniform_packet 61183 20000 1000 77)))
    by (vm_compute; discriminate).
  assert (Hi : 0 <= 3 < BLOCKS_PER_PACKET (Sample.hdl64 abs_float))
    by (simpl; lia).
  assert (Er : block_rotation (Sample.uniform_packet 61183 20000 1000 77) 3
               = Done 20000) by (vm_compute; reflexivity).
  assert (Hw : in_window (config_ (SampleNode.fresh (Sample.window 35000 1000)))
                 20000 = false) by (vm_compute; reflexivity).
  split; [exact Hlen | split; [exact Er | split; [exact Hw |]]].
  exact (proj1 (unpack_rejected_blocks (Sample.hdl64 abs_float)
                  (SampleNode.fresh (Sample.window 35000 1000))
                  (Sample.uniform_packet 61183 20000 1000 77)
                  Sample.empty_cloud Hlen)
           3 20000 Hi Er Hw).
Defined.

(** ** The window and its swap *)

(** X9: Swapping the two angles of a window gives the complementary window, the
    two angles themselves being accepted by both: every rotation passes one
    of the two tests, and passes both only if it is one of the angles. *)
Theorem window_swap c1 c2 r :
  min_angle c1 <> max_angle c1 ->
  min_angle c2 = max_angle c1 ->
  max_angle c2 = min_angle c1 ->
  (in_window c1 r = true \/ in_window c2 r = true)
  /\ (in_window c1 r = true /\ in_window c2 r = true <->
      r = min_angle c1 \/ r = max_angle c1).
Proof.
  intros Hne Hmin Hmax.
  rewrite !in_window_iff, Hmin, Hmax.
  split; [lia |].
  split; [intros ([H1 | H1] & [H2 | H2]); lia |].
  intros [H | H]; subst r; split; lia.
Qed.

Lemma window_swap_witness :
  let c1 := Sample.window 1000 35000 in
  let c2 := Sample.window 35000 1000 in
  min_angle c1 <> max_angle c1
  /\ (in_window c1 20000 = true \/ in_window c2 20000 = true)
  /\ (in_window c1 1000 = true /\ in_window c2 1000 = true).
Proof.
  cbv zeta.
  assert (Hne : min_angle (Sample.window 1000 35000)
                <> max_angle (Sample.window 1000 35000)) by (simpl; lia).
  destruct (window_swap (Sample.window 1000 35000) (Sample.window 35000 1000)
              20000 Hne eq_refl eq_refl) as (Hcover & _).
  destruct (window_swap (Sample.window 1000 35000) (Sample.window 35000 1000)
              1000 Hne eq_refl eq_refl) as (_ & Hboth).
  split; [exact Hne | split; [exact Hcover |]].
  apply Hboth; left; reflexivity.
Defined.

(** ** The 16-bit fields of a packet *)

Lemma byte_at_range (pkt : packet) off b :
  byte_at pkt off = Done b -> 0 <= b < 256.
Proof.
  unfold byte_at; intros H.
  apply bind_Done in H; destruct H as (v & _ & H).
  inversion H; subst b.
  pose proof (Byte.to_N_bounded v); lia.
Qed.

(** X10: The header, the rotation and the raw distance are read with the low
    byte first: the value of a field is within 0..65535, two fields of the
    same value have the same two bytes, and every value of 0..65535 is that of
    its low and high bytes.  The rotation that [unpack] reads from a packet is
    therefore any value of 0..65535, not only one below 36000. *)
Theorem two_bytes_little_endian :
  (forall pkt i r, block_rotation pkt i = Done r -> 0 <= r <= 65535)
  /\ (forall pkt i h, block_header pkt i = Done h -> 0 <= h <= 65535)
  /\ (forall b0 b1 c0 c1,
        0 <= b0 < 256 -> 0 <= b1 < 256 -> 0 <= c0 < 256 -> 0 <= c1 < 256 ->
        two_bytes_uint b0 b1 = two_bytes_uint c0 c1 -> b0 = c0 /\ b1 = c1)
  /\ (forall n, 0 <= n <= 65535 ->
        two_bytes_uint (n mod 256) (n / 256) = n
        /\ 0 <= n mod 256 < 256 /\ 0 <= n / 256 < 256).
Proof.
  split; [| split; [| split]].
  - intros pkt i r H; unfold block_rotation in H.
    apply bind_Done in H; destruct H as (b0 & E0 & H).
    apply bind_Done in H; destruct H as (b1 & E1 & H).
    inversion H; subst r.
    apply two_bytes_uint_range; eapply byte_at_range; eassumption.
  - intros pkt i h H; unfold block_header in H.
    apply bind_Done in H; destruct H as (b0 & E0 & H).
    apply bind_Done in H; destruct H as (b1 & E1 & H).
    inversion H; subst h.
    apply two_bytes_uint_range; eapply byte_at_range; eassumption.
  - unfold two_bytes_uint; intros; lia.
  - unfold two_bytes_uint; intros n Hn.
    pose proof (Z.div_mod n 256); pose proof (Z.mod_pos_bound n 256).
    assert (0 <= n / 256 < 256)
      by (split; [apply Z.div_pos; lia | apply Z.div_lt_upper_bound; lia]).
    lia.
Qed.

Lemma two_bytes_little_endian_witness :
  block_rotation (Sample.uniform_packet 61183 40000 1000 77) 0 = Done 40000
  /\ 0 <= 40000 <= 65535
  /\ two_bytes_uint (40000 mod 256) (40000 / 256) = 40000.
Proof.
  assert (E : block_rotation (Sample.uniform_packet 61183 40000 1000 77) 0
              = Done 40000) by (vm_compute; reflexivity).
  destruct two_bytes_little_endian as (Hrot & _ & _ & Hsplit).
  split; [exact E | split; [exact (Hrot _ _ _ E) |]].
  apply Hsplit; lia.
Defined.

(** ** The intensity without focal correction *)

Lemma add_byte_zero n s :
  0 <= n <= 255 -> F32.add (F32.of_Z n) (S754_zero s) = F32.of_Z n.
Proof.
  intros Hn.
  assert (Hall : forallb (fun k => match F32.of_Z k with
                                  | S754_zero false => true
                                  | S754_finite _ _ _ => true
                                  | _ => false
                                  end)
                   (map Z.of_nat (seq 0 256)) = true)
    by (vm_compute; reflexivity).
  rewrite forallb_forall in Hall.
  specialize (Hall n).
  assert (Hin : In n (map Z.of_nat (seq 0 256))).
  { apply in_map_iff; exists (Z.to_nat n); split; [lia |].
    apply in_seq; lia. }
  specialize (Hall Hin).
  destruct (F32.of_Z n) as [s0 | s0 | | s0 m e]; try discriminate.
  - destruct s0; [discriminate |]; destruct s; reflexivity.
  - reflexivity.
Qed.

Lemma mul_zero_number s x :
  Ieee.is_finite x = true -> exists s', F32.mul (S754_zero s) x = S754_zero s'.
Proof.
  destruct x as [sx | sx | | sx m e]; try discriminate; intros _;
    eexists; reflexivity.
Qed.

Lemma ltb_bytes a b :
  0 <= a <= 255 -> 0 <= b <= 255 ->
  Ieee.ltb (F32.of_Z a) (F32.of_Z b) = (a <? b).
Proof.
  intros Ha Hb.
  destruct (byte_values_exact a Ha) as (Va & Fa & Sa).
  destruct (byte_values_exact b Hb) as (Vb & Fb & Sb).
  unfold Ieee.ltb, SFltb.
  rewrite (compare_scaled _ _ Va Vb Fa Fb), Sa, Sb.
  assert (HP : 0 < 2 ^ 149) by (apply Z.pow_pos_nonneg; lia).
  destruct (Z.compare_spec (a * 2 ^ 149) (b * 2 ^ 149)) as [E | L | G];
    symmetry; [apply Z.ltb_ge | apply Z.ltb_lt | apply Z.ltb_ge]; nia.
Qed.

Lemma byte_to_uint8 n : 0 <= n <= 255 -> Ieee.to_uint8 (F32.of_Z n) = n.
Proof.
  intros Hn.
  destruct (byte_values_exact n Hn) as (V & F & S).
  assert (HP : 0 < 2 ^ 149) by (apply Z.pow_pos_nonneg; lia).
  rewrite (to_uint8_trunc _ n V).
  - apply Z.mod_small; lia.
  - rewrite (trunc_scaled _ V F), S, Z.quot_mul by lia; reflexivity.
Qed.

Lemma clamp_bytes lo hi n :
  0 <= lo <= hi -> hi <= 255 -> 0 <= n <= 255 ->
  clamp (F32.of_Z lo) (F32.of_Z hi) (F32.of_Z n)
  = F32.of_Z (Z.min hi (Z.max lo n)).
Proof.
  intros Hlo Hhi Hn; unfold clamp, Ieee.gtb.
  rewrite (ltb_bytes n lo) by lia.
  destruct (Z.ltb_spec n lo) as [L | L].
  - change (SFltb (F32.of_Z hi) (F32.of_Z lo))
      with (Ieee.ltb (F32.of_Z hi) (F32.of_Z lo)).
    rewrite (ltb_bytes hi lo) by lia.
    destruct (Z.ltb_spec hi lo); [lia |].
    f_equal; lia.
  - change (SFltb (F32.of_Z hi) (F32.of_Z n))
      with (Ieee.ltb (F32.of_Z hi) (F32.of_Z n)).
    rewrite (ltb_bytes hi n) by lia.
    destruct (Z.ltb_spec hi n); f_equal; lia.
Qed.

(** X11: For a channel whose focal_slope is zero (the other focal term being a
    number) and whose bounds are integers with
    0 <= min_intensity <= max_intensity <= 255, the intensity of an emitted
    point is the raw intensity byte of its record, raised to min_intensity or
    lowered to max_intensity when it is outside: nothing is lost to
    rounding, and the raw distance plays no part. *)
Theorem intensity_without_focal_slope
    hdr this pkt i bank j pc pc' b0 b1 ri lo hi s :
  block_data pkt i (j * RAW_SCAN_SIZE) = Done b0 ->
  block_data pkt i (j * RAW_SCAN_SIZE + 1) = Done b1 ->
  block_data pkt i (j * RAW_SCAN_SIZE + 2) = Done ri ->
  unpack_scan hdr this pkt i bank j pc = Done pc' ->
  pc' <> pc ->
  let corrections := laser_corrections this (laser_number bank j) in
  focal_slope corrections = S754_zero s ->
  Ieee.is_finite
    (abs_of hdr (F32.sub (focal_offset_of corrections)
                         (F32.of_Z (falloff_of (two_bytes_uint b0 b1)))))
  = true ->
  min_intensity corrections = F32.of_Z lo ->
  max_intensity corrections = F32.of_Z hi ->
  0 <= lo <= hi -> hi <= 255 ->
  exists p, pc' = push_back pc p /\ intensity p = Z.min hi (Z.max lo ri).
Proof.
  intros H0 H1 Hi H Hne corrections Hslope Hfin Hmin Hmax Hlo Hhi.
  assert (Hri : 0 <= ri <= 255).
  { unfold block_data in Hi; apply byte_at_range in Hi; lia. }
  destruct (unpack_scan_emits _ _ _ _ _ _ _ _ H Hne)
    as (b0' & b1' & r & cr & sr & ri' & H0' & H1' & _ & _ & _ & Hi' & Hp).
  assert (b0' = b0) by congruence; assert (b1' = b1) by congruence;
    assert (ri' = ri) by congruence; subst b0' b1' ri'.
  fold corrections in Hp.
  eexists; split; [exact Hp |].
  cbn [intensity point_of].
  unfold intensity_of, raw_plus_correction, intensity_correction_of.
  rewrite Hslope, Hmin, Hmax.
  destruct (mul_zero_number s _ Hfin) as (s' & Hz); rewrite Hz.
  rewrite add_byte_zero by exact Hri.
  rewrite clamp_bytes by lia.
  apply byte_to_uint8; lia.
Qed.

Lemma intensity_without_focal_slope_witness :
  let hdr := Sample.hdl64 abs_int in
  let l := Sample.plain_channel 100 200 in
  let this := Sample.decoder (Sample.window 35000 1000) l in
  let pkt := Sample.uniform_packet 61183 500 1000 255 in
  let pc := Sample.empty_cloud in
  let pc' := push_back pc (point_of hdr l (F32.of_Z 1) F32.zero 1000 255) in
  unpack_scan hdr this pkt 0 0 0 pc = Done pc'
  /\ pc' <> pc
  /\ focal_slope l = S754_zero false
  /\ exists p, pc' = push_back pc p /\ intensity p = Z.min 200 (Z.max 100 255).
Proof.
  cbv zeta.
  set (hdr := Sample.hdl64 abs_int).
  set (l := Sample.plain_channel 100 200).
  set (this := Sample.decoder (Sample.window 35000 1000) l).
  set (pkt := Sample.uniform_packet 61183 500 1000 255).
  set (pc' := push_back Sample.empty_cloud
                (point_of hdr l (F32.of_Z 1) F32.zero 1000 255)).
  assert (H0 : block_data pkt 0 (0 * RAW_SCAN_SIZE) = Done 232)
    by (vm_compute; reflexivity).
  assert (H1 : block_data pkt 0 (0 * RAW_SCAN_SIZE + 1) = Done 3)
    by (vm_compute; reflexivity).
  assert (Hi : block_data pkt 0 (0 * RAW_SCAN_SIZE + 2) = Done 255)
    by (vm_compute; reflexivity).
  assert (H : unpack_scan hdr this pkt 0 0 0 Sample.empty_cloud = Done pc')
    by (vm_compute; reflexivity).
  assert (Hne : pc' <> Sample.empty_cloud) by apply push_back_neq.
  assert (Hfin : Ieee.is_finite
                   (abs_of hdr
                      (F32.sub
                         (focal_offset_of
                            (laser_corrections this (laser_number 0 0)))
                         (F32.of_Z (falloff_of (two_bytes_uint 232 3)))))
                 = true) by (vm_compute; reflexivity).
  assert (Hlo : 0 <= 100 <= 200) by lia.
  assert (Hhi : 200 <= 255) by lia.
  split; [exact H | split; [exact Hne | split; [reflexivity |]]].
  exact (intensity_without_focal_slope hdr this pkt 0 0 0 Sample.empty_cloud
           pc' 232 3 255 100 200 false H0 H1 Hi H Hne eq_refl Hfin
           eq_refl eq_refl Hlo Hhi).
Defined.

(** ** A channel without geometric correction *)

(** Multiplying a number of binary32 by 1 gives the number back. *)
Lemma mul_one x :
  F32.valid x = true -> Ieee.is_finite x = true -> F32.mul x (F32.of_Z 1) = x.
Proof.
  intros Hv Hf.
  change (F32.of_Z 1) with (S754_finite false 8388608 (-23)).
  destruct x as [s | s | | s m e]; try discriminate.
  - destruct s; reflexivity.
  - unfold F32.valid, Ieee.valid, valid_binary, bounded, canonical_mantissa in Hv.
    apply andb_true_iff in Hv; destruct Hv as (Hc & Hb).
    apply Z.eqb_eq in Hc.
    unfold F32.mul, Ieee.mul, SFmul.
    rewrite xorb_false_r.
    replace (m * 8388608)%positive with (Pos.iter xO m 23)
      by (rewrite Pos.mul_comm; reflexivity).
    unfold binary_round_aux, shr_fexp.
    cbn [Pos.iter Zdigits2 digits2_pos].
    match goal with
    | |- context [fexp _ _ (Z.pos ?d + (e + -23))] =>
        replace (Z.pos d + (e + -23)) with (Z.pos (digits2_pos m) + e)
          by (rewrite !Pos2Z.inj_succ; lia)
    end.
    rewrite Hc.
    replace (e - (e + -23)) with 23 by lia.
    cbn [shr shr_record_of_loc iter_pos shr_1 orb].
    cbn [shr_m loc_of_shr_record round_nearest_even Zdigits2].
    replace (e + -23 + 23) with e by lia.
    rewrite Hc, Z.sub_diag.
    cbn [shr shr_record_of_loc shr_m].
    rewrite Hb; reflexivity.
Qed.

Lemma same_value_refl a : same_value a a.
Proof.
  left; reflexivity.
Qed.

Lemma same_value_trans a b c :
  same_value a b -> same_value b c -> same_value a c.
Proof.
  intros [E1 | (s1 & s1' & A1 & B1)] [E2 | (s2 & s2' & A2 & B2)]; subst.
  - left; reflexivity.
  - right; eauto.
  - right; eauto.
  - right; eauto.
Qed.

Lemma same_value_number a b :
  same_value a b ->
  F32.valid b = true -> Ieee.is_finite b = true ->
  F32.valid a = true /\ Ieee.is_finite a = true.
Proof.
  intros [E | (s & s' & A & B)] Hv Hf; subst; auto.
Qed.

Lemma add_zero_value a s : same_value (F32.add a (S754_zero s)) a.
Proof.
  destruct a as [sa | sa | | sa m e].
  - destruct sa, s; right; do 2 eexists; split; reflexivity.
  - left; reflexivity.
  - left; reflexivity.
  - left; reflexivity.
Qed.

Lemma sub_zero_value a s : same_value (F32.sub a (S754_zero s)) a.
Proof.
  destruct a as [sa | sa | | sa m e].
  - destruct sa, s; right; do 2 eexists; split; reflexivity.
  - left; reflexivity.
  - left; reflexivity.
  - left; reflexivity.
Qed.

Lemma mul_number_zero x s :
  Ieee.is_finite x = true -> exists s', F32.mul x (S754_zero s) = S754_zero s'.
Proof.
  destruct x as [sx | sx | | sx m e]; try discriminate; intros _;
    eexists; reflexivity.
Qed.

Lemma mul_value_l a a' b :
  same_value a a' -> same_value (F32.mul a b) (F32.mul a' b).
Proof.
  intros [E | (s & s' & A & B)]; subst; [left; reflexivity |].
  destruct b as [sb | sb | | sb m e].
  - right; eexists; eexists; split; reflexivity.
  - left; reflexivity.
  - left; reflexivity.
  - right; eexists; eexists; split; reflexivity.
Qed.

Lemma mul_value_r a b b' :
  same_value b b' -> same_value (F32.mul a b) (F32.mul a b').
Proof.
  intros [E | (s & s' & A & B)]; subst; [left; reflexivity |].
  destruct a as [sa | sa | | sa m e].
  - right; eexists; eexists; split; reflexivity.
  - left; reflexivity.
  - left; reflexivity.
  - right; eexists; eexists; split; reflexivity.
Qed.

Lemma opp_value a b : same_value a b -> same_value (Ieee.opp a) (Ieee.opp b).
Proof.
  intros [E | (s & s' & A & B)]; subst; [left; reflexivity |].
  right; eexists; eexists; split; reflexivity.
Qed.

(** X12: For a channel without geometric correction (rotational and vertical
    correction angles 0, no offsets, no two-point correction) the point of a
    record is the plain conversion of its distance and of the table entries
    of its rotation, in the output convention: x is distance * cos, y is
    -(distance * sin) and z is 0, each product rounded once. *)
Theorem plain_channel_geometry hdr corrections cos_rot sin_rot raw ri :
  cos_rot_correction corrections = F32.of_Z 1 ->
  sin_rot_correction corrections = S754_zero false ->
  cos_vert_correction corrections = F32.of_Z 1 ->
  sin_vert_correction corrections = S754_zero false ->
  horiz_offset_correction corrections = S754_zero false ->
  vert_offset_correction corrections = S754_zero false ->
  two_pt_correction_available corrections = false ->
  F32.valid cos_rot = true -> Ieee.is_finite cos_rot = true ->
  F32.valid sin_rot = true -> Ieee.is_finite sin_rot = true ->
  let distance := distance_of hdr corrections raw in
  F32.valid distance = true -> Ieee.is_finite distance = true ->
  let p := point_of hdr corrections cos_rot sin_rot raw ri in
  same_value (x p) (F32.mul distance cos_rot)
  /\ same_value (y p) (Ieee.opp (F32.mul distance sin_rot))
  /\ z p = S754_zero false.
Proof.
  intros Hcr Hsr Hcv Hsv Hho Hvo Htwo Vc Fc Vs Fs distance Vd Fd p.
  (* the rotation of the point is that of the block *)
  assert (Ecos : same_value (cos_rot_angle_of corrections cos_rot sin_rot) cos_rot).
  { unfold cos_rot_angle_of; rewrite Hcr, Hsr, (mul_one _ Vc Fc).
    destruct (mul_number_zero sin_rot false Fs) as (s & E); rewrite E.
    apply add_zero_value. }
  assert (Esin : same_value (sin_rot_angle_of corrections cos_rot sin_rot) sin_rot).
  { unfold sin_rot_angle_of; rewrite Hcr, Hsr, (mul_one _ Vs Fs).
    destruct (mul_number_zero cos_rot false Fc) as (s & E); rewrite E.
    apply sub_zero_value. }
  destruct (same_value_number _ _ Ecos Vc Fc) as (_ & Fca).
  destruct (same_value_number _ _ Esin Vs Fs) as (_ & Fsa).
  (* the distance in the plane is the distance *)
  assert (Edist : same_value (F32.add distance (S754_zero false)) distance)
    by apply add_zero_value.
  destruct (same_value_number _ _ Edist Vd Fd) as (Vdx & Fdx).
  assert (Exy : same_value
                  (F32.mul (F32.add distance (S754_zero false))
                           (cos_vert_correction corrections)) distance).
  { rewrite Hcv, (mul_one _ Vdx Fdx); exact Edist. }
  unfold p, point_of; cbn [x y z]; fold distance.
  unfold x_of, y_of, z_of, distance_corr_x_of, distance_corr_y_of.
  rewrite Htwo, Hho, Hsv, Hvo.
  change (F32.of_Z 0) with (S754_zero false).
  split; [| split].
  - destruct (mul_zero_number false _ Fsa) as (s & E); rewrite E.
    eapply same_value_trans; [apply add_zero_value |].
    eapply same_value_trans; [apply mul_value_l; exact Exy |].
    apply mul_value_r; exact Ecos.
  - apply opp_value.
    destruct (mul_zero_number false _ Fca) as (s & E); rewrite E.
    eapply same_value_trans; [apply add_zero_value |].
    eapply same_value_trans; [apply mul_value_l; exact Exy |].
    apply mul_value_r; exact Esin.
  - destruct (mul_number_zero distance false Fd) as (s & E); rewrite E.
    destruct s; reflexivity.
Qed.

Lemma plain_channel_geometry_witness :
  let hdr := Sample.hdl64 abs_float in
  let l := Sample.plain_channel 0 255 in
  let distance := distance_of hdr l 1000 in
  let p := point_of hdr l (F32.of_Z 1) F32.zero 1000 77 in
  F32.valid distance = true /\ Ieee.is_finite distance = true
  /\ same_value (x p) (F32.mul distance (F32.of_Z 1))
  /\ same_value (y p) (Ieee.opp (F32.mul distance F32.zero))
  /\ z p = S754_zero false.
Proof.
  cbv zeta.
  assert (Vd : F32.valid (distance_of (Sample.hdl64 abs_float)
                            (Sample.plain_channel 0 255) 1000) = true)
    by (vm_compute; reflexivity).
  assert (Fd : Ieee.is_finite (distance_of (Sample.hdl64 abs_float)
                                 (Sample.plain_channel 0 255) 1000) = true)
    by (vm_compute; reflexivity).
  assert (Vc : F32.valid (F32.of_Z 1) = true) by (vm_compute; reflexivity).
  assert (Fc : Ieee.is_finite (F32.of_Z 1) = true) by (vm_compute; reflexivity).
  assert (Vs : F32.valid F32.zero = true) by reflexivity.
  assert (Fs : Ieee.is_finite F32.zero = true) by reflexivity.
  split; [exact Vd | split; [exact Fd |]].
  exact (plain_channel_geometry (Sample.hdl64 abs_float)
           (Sample.plain_channel 0 255) (F32.of_Z 1) F32.zero 1000 77
           eq_refl eq_refl eq_refl eq_refl eq_refl eq_refl eq_refl
           Vc Fc Vs Fs Vd Fd).
Defined.

(** ** Two packets *)

(** X13: Decoding a second packet into the cloud of a first appends the points of
    the first packet followed by those of the second, each set being what
    the packet gives when it is decoded alone. *)
Theorem unpack_two_packets hdr this pkt1 pkt2 pc pc1 pc2 :
  unpack hdr this pkt1 pc = Done pc1 ->
  unpack hdr this pkt2 pc1 = Done pc2 ->
  exists new1 new2,
    pc2 = append_points pc (new1 ++ new2)
    /\ (forall pc0, unpack hdr this pkt1 pc0 = Done (append_points pc0 new1))
    /\ (forall pc0, unpack hdr this pkt2 pc0 = Done (append_points pc0 new2)).
Proof.
  unfold unpack; intros H1 H2.
  apply blocks_append in H1; destruct H1 as (new1 & E1 & _ & _ & I1).
  apply blocks_append in H2; destruct H2 as (new2 & E2 & _ & _ & I2).
  exists new1, new2.
  split; [rewrite E2, E1; apply append_points_app |].
  split; [exact I1 | exact I2].
Qed.

Lemma unpack_two_packets_witness :
  let hdr := Sample.hdl64 abs_float in
  let this := Sample.decoder (Sample.window 35000 1000)
                (Sample.plain_channel 0 255) in
  let pkt := Sample.uniform_packet 61183 500 1000 77 in
  exists pc1 pc2 new1 new2,
    unpack hdr this pkt Sample.empty_cloud = Done pc1
    /\ unpack hdr this pkt pc1 = Done pc2
    /\ pc2 = append_points Sample.empty_cloud (new1 ++ new2).
Proof.
  cbv zeta.
  destruct (sample_unpack_runs Sample.empty_cloud) as (pc1 & H1).
  destruct (sample_unpack_runs pc1) as (pc2 & H2).
  destruct (unpack_two_packets _ _ _ _ _ _ _ H1 H2) as (new1 & new2 & E & _).
  exists pc1, pc2, new1, new2.
  split; [exact H1 | split; [exact H2 | exact E]].
Defined.
